(** * telegram-food-bot: location resolution, persistence and link catalogue

    A shallow embedding of the core of [bot.py]:
    - the link builder ([build_snappfood_link], [build_inline_pairs]) together
      with the part of [urllib.parse.quote_plus] it relies on;
    - the reverse geocoder ([reverse_geocode]), run against an explicit HTTP
      outcome;
    - the location store ([init_db], [save_user_location],
      [get_user_location]) over an explicit table of rows, with the
      binding of the values to the statements ([INTEGER], [REAL],
      [TEXT]) written out.

    Python [str] values are sequences of Unicode code points; byte strings
    are [list byte].  Python exceptions are an explicit [Raise] result. *)

From Stdlib Require Import PrimFloat.
From Stdlib Require Import List NArith ZArith Bool Lia String Eqdep_dec.
From Stdlib.Strings Require Import Byte.
Import ListNotations.

Set Implicit Arguments.
Set Warnings "-register-all,-inexact-float".

(* ------------------------------------------------------------------ *)
(** ** Exceptions and results                                          *)
(* ------------------------------------------------------------------ *)

(** The exception classes that the modelled code can meet.  The last two
    derive from [BaseException] only, so [except Exception] lets them
    through. *)
Inductive exn : Type :=
| ConnectionError
| Timeout
| HTTPError
| JSONDecodeError
| AttributeError
| TypeError
| UnicodeEncodeError
| OverflowError
| OperationalError
| InvalidToken
| OtherException
| KeyboardInterrupt
| SystemExit.

Definition is_Exception (e : exn) : bool :=
  match e with
  | KeyboardInterrupt | SystemExit => false
  | _ => true
  end.

Inductive result (A : Type) : Type :=
| Ok (a : A)
| Raise (e : exn).

Arguments Ok {A} a.
Arguments Raise {A} e.

Definition bind {A B : Type} (m : result A) (k : A -> result B) : result B :=
  match m with
  | Ok a => k a
  | Raise e => Raise e
  end.

Declare Scope py_scope.
Delimit Scope py_scope with py.
Notation "x <- m ;; k" := (bind m (fun x => k))
  (at level 61, m at next level, right associativity) : py_scope.
Open Scope py_scope.

(** [try: body / except Exception: handler]. *)
Definition try_except_Exception {A : Type} (body : result A) (handler : result A)
  : result A :=
  match body with
  | Ok a => Ok a
  | Raise e => if is_Exception e then handler else Raise e
  end.

(* ------------------------------------------------------------------ *)
(** ** Python strings and UTF-8                                        *)
(* ------------------------------------------------------------------ *)

(** A Python [str]: its code points. *)
Definition pystr : Type := list N.

Fixpoint pystr_eqb (a b : pystr) : bool :=
  match a, b with
  | [], [] => true
  | x :: a', y :: b' => (x =? y)%N && pystr_eqb a' b'
  | _, _ => false
  end.

Definition byte_of_N (n : N) : byte :=
  match Byte.of_N n with
  | Some b => b
  | None => x00
  end.

(** [str.encode('utf-8', 'strict')] on one code point; [None] stands for
    a code point that cannot be encoded (a surrogate). *)
Definition utf8_encode_char (c : N) : option (list byte) :=
  if (c <? 0x80)%N then
    Some [byte_of_N c]
  else if (c <? 0x800)%N then
    Some [byte_of_N (N.lor 0xC0 (N.shiftr c 6));
          byte_of_N (N.lor 0x80 (N.land c 0x3F))]
  else if (c <? 0x10000)%N then
    if ((0xD800 <=? c) && (c <=? 0xDFFF))%N then None
    else
      Some [byte_of_N (N.lor 0xE0 (N.shiftr c 12));
            byte_of_N (N.lor 0x80 (N.land (N.shiftr c 6) 0x3F));
            byte_of_N (N.lor 0x80 (N.land c 0x3F))]
  else if (c <? 0x110000)%N then
    Some [byte_of_N (N.lor 0xF0 (N.shiftr c 18));
          byte_of_N (N.lor 0x80 (N.land (N.shiftr c 12) 0x3F));
          byte_of_N (N.lor 0x80 (N.land (N.shiftr c 6) 0x3F));
          byte_of_N (N.lor 0x80 (N.land c 0x3F))]
  else None.

Fixpoint utf8_encode (s : pystr) : result (list byte) :=
  match s with
  | [] => Ok []
  | c :: s' =>
      match utf8_encode_char c with
      | None => Raise UnicodeEncodeError
      | Some bs => rest <- utf8_encode s' ;; Ok (bs ++ rest)
      end
  end.

(** A continuation byte [10xxxxxx] gives its six payload bits. *)
Definition utf8_cont (b : byte) : option N :=
  let n := Byte.to_N b in
  if ((0x80 <=? n) && (n <? 0xC0))%N then Some (N.land n 0x3F) else None.

(** Strict UTF-8 decoding: overlong forms, surrogates and values above
    U+10FFFF are refused. *)
Fixpoint utf8_decode (bs : list byte) : option pystr :=
  match bs with
  | [] => Some []
  | b0 :: r0 =>
      let n0 := Byte.to_N b0 in
      if (n0 <? 0x80)%N then
        option_map (cons n0) (utf8_decode r0)
      else if (n0 <? 0xC0)%N then None
      else if (n0 <? 0xE0)%N then
        match r0 with
        | b1 :: r1 =>
            match utf8_cont b1 with
            | Some c1 =>
                let c := (N.shiftl (N.land n0 0x1F) 6 + c1)%N in
                if (0x80 <=? c)%N then option_map (cons c) (utf8_decode r1)
                else None
            | None => None
            end
        | _ => None
        end
      else if (n0 <? 0xF0)%N then
        match r0 with
        | b1 :: b2 :: r2 =>
            match utf8_cont b1, utf8_cont b2 with
            | Some c1, Some c2 =>
                let c := (N.shiftl (N.land n0 0x0F) 12 + N.shiftl c1 6 + c2)%N in
                if ((0x800 <=? c) && negb ((0xD800 <=? c) && (c <=? 0xDFFF)))%N
                then option_map (cons c) (utf8_decode r2)
                else None
            | _, _ => None
            end
        | _ => None
        end
      else if (n0 <? 0xF8)%N then
        match r0 with
        | b1 :: b2 :: b3 :: r3 =>
            match utf8_cont b1, utf8_cont b2, utf8_cont b3 with
            | Some c1, Some c2, Some c3 =>
                let c := (N.shiftl (N.land n0 0x07) 18 + N.shiftl c1 12
                          + N.shiftl c2 6 + c3)%N in
                if ((0x10000 <=? c) && (c <? 0x110000))%N
                then option_map (cons c) (utf8_decode r3)
                else None
            | _, _, _ => None
            end
        | _ => None
        end
      else None
  end.

(** The first code point of a byte string and what follows it, by the
    rules of [utf8_decode]. *)
Definition utf8_decode_step (bs : list byte) : option (N * list byte) :=
  match bs with
  | [] => None
  | b0 :: r0 =>
      let n0 := Byte.to_N b0 in
      if (n0 <? 0x80)%N then Some (n0, r0)
      else if (n0 <? 0xC0)%N then None
      else if (n0 <? 0xE0)%N then
        match r0 with
        | b1 :: r1 =>
            match utf8_cont b1 with
            | Some c1 =>
                let c := (N.shiftl (N.land n0 0x1F) 6 + c1)%N in
                if (0x80 <=? c)%N then Some (c, r1) else None
            | None => None
            end
        | _ => None
        end
      else if (n0 <? 0xF0)%N then
        match r0 with
        | b1 :: b2 :: r2 =>
            match utf8_cont b1, utf8_cont b2 with
            | Some c1, Some c2 =>
                let c := (N.shiftl (N.land n0 0x0F) 12 + N.shiftl c1 6 + c2)%N in
                if ((0x800 <=? c) && negb ((0xD800 <=? c) && (c <=? 0xDFFF)))%N
                then Some (c, r2) else None
            | _, _ => None
            end
        | _ => None
        end
      else if (n0 <? 0xF8)%N then
        match r0 with
        | b1 :: b2 :: b3 :: r3 =>
            match utf8_cont b1, utf8_cont b2, utf8_cont b3 with
            | Some c1, Some c2, Some c3 =>
                let c := (N.shiftl (N.land n0 0x07) 18 + N.shiftl c1 12
                          + N.shiftl c2 6 + c3)%N in
                if ((0x10000 <=? c) && (c <? 0x110000))%N
                then Some (c, r3) else None
            | _, _, _ => None
            end
        | _ => None
        end
      else None
  end.

(** [f] holds of the [n] numbers from [c] on. *)
Fixpoint all_from (f : N -> bool) (n : nat) (c : N) : bool :=
  match n with
  | O => true
  | S k => f c && all_from f k (N.succ c)
  end.

(** A source literal: this file is UTF-8, as [bot.py] is, so the bytes of
    a Rocq string literal are the UTF-8 encoding of the Python literal. *)
Definition py (s : string) : pystr :=
  match utf8_decode (list_byte_of_string s) with
  | Some cps => cps
  | None => []
  end.

Definition chr_of_byte (b : byte) : N := Byte.to_N b.

(** [c in s] and [s.replace(old, new)] for one-character strings. *)
Definition contains_char (c : N) (s : pystr) : bool :=
  existsb (N.eqb c) s.

Definition replace_char (old new : N) (s : pystr) : pystr :=
  map (fun c => if (c =? old)%N then new else c) s.

Definition startswith (s prefix : pystr) : bool :=
  pystr_eqb (firstn (List.length prefix) s) prefix.

Definition endswith (s suffix : pystr) : bool :=
  pystr_eqb (skipn (List.length s - List.length suffix) s) suffix.

(* ------------------------------------------------------------------ *)
(** ** [urllib.parse.quote_plus]                                       *)
(* ------------------------------------------------------------------ *)

Definition SPACE : N := 0x20.
Definition PLUS : N := 0x2B.
Definition PERCENT : N := 0x25.

(** [_ALWAYS_SAFE]: the unreserved characters, never quoted. *)
Definition ALWAYS_SAFE : list byte :=
  list_byte_of_string
    "ABCDEFGHIJKLMNOPQRSTUVWXYZabcdefghijklmnopqrstuvwxyz0123456789_.-~".

Definition byte_in (b : byte) (l : list byte) : bool :=
  existsb (Byte.eqb b) l.

(** One digit of ['%{:02X}'.format(b)]. *)
Definition hex_digit (n : N) : N :=
  if (n <? 10)%N then (0x30 + n)%N else (0x41 + (n - 10))%N.

(** The quoter of [quote_from_bytes]: a safe byte stands for itself, any
    other byte becomes [%XX] in upper-case hexadecimal. *)
Definition quoter (safe : list byte) (b : byte) : pystr :=
  if byte_in b (ALWAYS_SAFE ++ safe) then [chr_of_byte b]
  else
    let n := Byte.to_N b in
    [PERCENT; hex_digit (N.shiftr n 4); hex_digit (N.land n 0xF)].

(** [quote_from_bytes(bs, safe)]: [''.join(quoter(c) for c in bs)].  (The
    early return of the library for an input made of safe bytes only gives
    the same string.) *)
Definition quote_from_bytes (bs : list byte) (safe : list byte) : pystr :=
  List.concat (map (quoter safe) bs).

(** [quote(string, safe)] on a [str]: the empty string is returned as it
    is, anything else is encoded as UTF-8 (strict) and quoted. *)
Definition quote (s : pystr) (safe : list byte) : result pystr :=
  match s with
  | [] => Ok s
  | _ => bs <- utf8_encode s ;; Ok (quote_from_bytes bs safe)
  end.

(** [quote_plus(string)] with the default [safe='']: as [quote], but a
    space is kept through quoting and then written as a plus sign. *)
Definition quote_plus (s : pystr) : result pystr :=
  if negb (contains_char SPACE s) then quote s []
  else
    q <- quote s [byte_of_N SPACE] ;;
    Ok (replace_char SPACE PLUS q).

(* ------------------------------------------------------------------ *)
(** ** Decoding a query string (the reader's side of a generated link) *)
(* ------------------------------------------------------------------ *)

Definition unhex (c : N) : option N :=
  if ((0x30 <=? c) && (c <=? 0x39))%N then Some (c - 0x30)%N
  else if ((0x41 <=? c) && (c <=? 0x46))%N then Some (c - 0x41 + 10)%N
  else if ((0x61 <=? c) && (c <=? 0x66))%N then Some (c - 0x61 + 10)%N
  else None.

(** Percent-decoding to bytes; a stray [%] or a non-ASCII character is
    refused. *)
Fixpoint unquote_to_bytes (s : pystr) : option (list byte) :=
  match s with
  | [] => Some []
  | c :: r =>
      if (c =? PERCENT)%N then
        match r with
        | h1 :: h2 :: r2 =>
            match unhex h1, unhex h2 with
            | Some a, Some b =>
                option_map (cons (byte_of_N (16 * a + b))) (unquote_to_bytes r2)
            | _, _ => None
            end
        | _ => None
        end
      else if (c <? 0x80)%N then
        option_map (cons (byte_of_N c)) (unquote_to_bytes r)
      else None
  end.

(** Standard decoding of a query value: plus to space, percent-decoding,
    then UTF-8. *)
Definition unquote_plus (s : pystr) : option pystr :=
  match unquote_to_bytes (replace_char PLUS SPACE s) with
  | Some bs => utf8_decode bs
  | None => None
  end.

(** [s.partition(sep)] for a one-character separator, when it occurs. *)
Fixpoint partition_char (sep : N) (s : pystr) : option (pystr * pystr) :=
  match s with
  | [] => None
  | c :: r =>
      if (c =? sep)%N then Some ([], r)
      else
        match partition_char sep r with
        | Some (before, after) => Some (c :: before, after)
        | None => None
        end
  end.

(** [s.split(sep)] for a one-character separator. *)
Fixpoint split_char (sep : N) (s : pystr) : list pystr :=
  match s with
  | [] => [[]]
  | c :: r =>
      match split_char sep r with
      | [] => [[c]]
      | w :: ws => if (c =? sep)%N then [] :: w :: ws else (c :: w) :: ws
      end
  end.

(** The query component of a URL: what follows the first question mark. *)
Definition query_component (url : pystr) : option pystr :=
  option_map snd (partition_char 0x3F url).

(** The raw (still encoded) value of parameter [name] in a query. *)
Fixpoint find_param (name : pystr) (items : list pystr) : option pystr :=
  match items with
  | [] => None
  | it :: rest =>
      match partition_char 0x3D it with
      | Some (k, v) => if pystr_eqb k name then Some v else find_param name rest
      | None => find_param name rest
      end
  end.

(** The decoded value of parameter [name] of [url]. *)
Definition query_value (name : pystr) (url : pystr) : option pystr :=
  match query_component url with
  | Some q =>
      match find_param name (split_char 0x26 q) with
      | Some v => unquote_plus v
      | None => None
      end
  | None => None
  end.

(* ------------------------------------------------------------------ *)
(** ** Link builder                                                    *)
(* ------------------------------------------------------------------ *)

(** A [dict] with string keys, in insertion order. *)
Definition dict (V : Type) : Type := list (pystr * V).

Fixpoint dict_lookup {V : Type} (d : dict V) (k : pystr) : option V :=
  match d with
  | [] => None
  | (k', v) :: d' => if pystr_eqb k' k then Some v else dict_lookup d' k
  end.

(** [d.get(k, default)]. *)
Definition dict_get {V : Type} (d : dict V) (k : pystr) (default : V) : V :=
  match dict_lookup d k with
  | Some v => v
  | None => default
  end.

Definition BASE_WEB : pystr := py "https://snappfood.ir".

Definition CATEGORY_QUERIES : dict pystr :=
  [ (py "pizza", py "پیتزا");
    (py "kebab", py "کباب");
    (py "burger", py "برگر");
    (py "sandwich", py "ساندویچ");
    (py "irani", py "ایرانی") ].

(** [build_snappfood_link(category_key, city=None)]. *)
Definition build_snappfood_link (category_key : pystr) (city : option pystr)
  : result pystr :=
  let q := dict_get CATEGORY_QUERIES category_key [] in
  e <- quote_plus q ;;
  Ok (BASE_WEB ++ py "/search?query=" ++ e).

(** [build_inline_pairs(city=None)]. *)
Definition build_inline_pairs (city : option pystr)
  : result (list (pystr * pystr)) :=
  u1 <- build_snappfood_link (py "pizza") city ;;
  u2 <- build_snappfood_link (py "kebab") city ;;
  u3 <- build_snappfood_link (py "burger") city ;;
  u4 <- build_snappfood_link (py "sandwich") city ;;
  u5 <- build_snappfood_link (py "irani") city ;;
  let keys :=
    [ (py "🍕 پیتزا ارزان", u1);
      (py "🍖 کباب ارزان", u2);
      (py "🍔 برگر ارزان", u3);
      (py "🥪 ساندویچ ارزان", u4);
      (py "🍽 ایرانی ارزان", u5) ] in
  Ok keys.

(** A label is emoji-prefixed when it opens with a pictograph (U+1F300 to
    U+1FAFF) followed by a space. *)
Definition is_emoji (c : N) : bool :=
  ((0x1F300 <=? c) && (c <=? 0x1FAFF))%N.

Definition emoji_prefixed (label : pystr) : bool :=
  match label with
  | c :: sp :: _ :: _ => is_emoji c && (sp =? SPACE)%N
  | _ => false
  end.

(* ------------------------------------------------------------------ *)
(** ** Values bound to a statement                                     *)
(* ------------------------------------------------------------------ *)

(** The values of an [INTEGER] column: the signed 64-bit integers. *)
Definition INT64_MIN : Z := -9223372036854775808.
Definition INT64_MAX : Z := 9223372036854775807.

Definition in_int64 (z : Z) : bool :=
  ((INT64_MIN <=? z) && (z <=? INT64_MAX))%Z.

Record int64 : Type := {
  int64_value : Z;
  int64_range : in_int64 int64_value = true
}.

(** Binding a Python [int] to a [?]: the value itself when it fits in
    64 bits, [OverflowError] when it does not. *)
Definition bind_integer (z : Z) : result int64 :=
  match Bool.bool_dec (in_int64 z) true with
  | left H => Ok {| int64_value := z; int64_range := H |}
  | right _ => Raise OverflowError
  end.

(** Binding a Python [str] to a [?]: the text goes to SQLite in UTF-8,
    and is read back as it was; a text that has no UTF-8 encoding (a
    lone surrogate) raises [UnicodeEncodeError]. *)
Definition bind_text (s : pystr) : result pystr :=
  encoded <- utf8_encode s ;; Ok s.

(** A Unicode scalar value: a code point that is not a surrogate. *)
Definition unicode_scalar (c : N) : bool :=
  ((c <? 0xD800) || ((0xDFFF <? c) && (c <? 0x110000)))%N.

(* ------------------------------------------------------------------ *)
(** ** Geocoder and location store                                     *)
(* ------------------------------------------------------------------ *)

Section Core.

(** Python [float] values and their truth value ([x != 0.0]).  Neither
    the geocoder nor the store computes with them.  [sqlite_real x] is
    the cell that a [REAL] column holds once [x] has been bound to a
    [?]: SQLite keeps no NaN and stores [NULL] in its place. *)
Variable float : Type.
Variable float_bool : float -> bool.
Variable sqlite_real : float -> option float.

(** *** Values decoded from JSON *)

Inductive pyval : Type :=
| PNone
| PBool (b : bool)
| PInt (z : Z)
| PFloat (f : float)
| PStr (s : pystr)
| PList (l : list pyval)
| PDict (d : list (pystr * pyval)).

(** [bool(v)]. *)
Definition truthy (v : pyval) : bool :=
  match v with
  | PNone => false
  | PBool b => b
  | PInt z => negb (z =? 0)%Z
  | PFloat f => float_bool f
  | PStr s => match s with [] => false | _ => true end
  | PList l => match l with [] => false | _ => true end
  | PDict d => match d with [] => false | _ => true end
  end.

(** [a or b]: [b] is evaluated only when [a] is falsy. *)
Definition py_or (a : result pyval) (b : result pyval) : result pyval :=
  v <- a ;; if truthy v then Ok v else b.

(** [obj.get(key, default)]: only a [dict] has the method. *)
Definition method_get (obj : pyval) (key : pystr) (default : pyval)
  : result pyval :=
  match obj with
  | PDict d => Ok (dict_get d key default)
  | _ => Raise AttributeError
  end.

(** *** The HTTP exchange *)

Inductive param_value : Type :=
| ParamFloat (f : float)
| ParamStr (s : pystr).

Record request : Type := {
  req_url : pystr;
  req_params : dict param_value;
  req_headers : dict pystr;
  req_timeout : Z
}.

(** What the code reads of a response: the status, and the body as
    [r.json()] decodes it ([None] when the body is missing or is not
    JSON). *)
Record response : Type := {
  status_code : Z;
  json_body : option pyval
}.

(** [requests.get] either raises or returns a response. *)
Inductive http_outcome : Type :=
| HttpRaises (e : exn)
| HttpResponse (r : response).

Definition call_get (o : http_outcome) : result response :=
  match o with
  | HttpRaises e => Raise e
  | HttpResponse r => Ok r
  end.

(** [r.raise_for_status()]: [HTTPError] for a client (4xx) or server
    (5xx) error status, nothing otherwise. *)
Definition raise_for_status (r : response) : result unit :=
  if ((400 <=? status_code r) && (status_code r <? 600))%Z
  then Raise HTTPError
  else Ok tt.

(** [r.json()]. *)
Definition response_json (r : response) : result pyval :=
  match json_body r with
  | Some v => Ok v
  | None => Raise JSONDecodeError
  end.

Definition OSM_REVERSE_URL : pystr :=
  py "https://nominatim.openstreetmap.org/reverse".
Definition USER_AGENT : pystr :=
  py "TelegramFoodBot/1.0 (contact: you@example.com)".

Definition geocode_request (lat lon : float) : request :=
  {| req_url := OSM_REVERSE_URL;
     req_params :=
       [ (py "lat", ParamFloat lat);
         (py "lon", ParamFloat lon);
         (py "format", ParamStr (py "jsonv2"));
         (py "accept-language", ParamStr (py "fa,en")) ];
     req_headers := [ (py "User-Agent", USER_AGENT) ];
     req_timeout := 10 |}.

(** [reverse_geocode(lat, lon)], against the network [requests_get]. *)
Definition reverse_geocode (requests_get : request -> http_outcome)
           (lat lon : float) : result (pyval * pyval) :=
  try_except_Exception
    (r <- call_get (requests_get (geocode_request lat lon)) ;;
     _ <- raise_for_status r ;;
     data <- response_json r ;;
     address <- method_get data (py "display_name") (PStr []) ;;
     comp <- method_get data (py "address") (PDict []) ;;
     city <-
       py_or (method_get comp (py "city") PNone)
         (py_or (method_get comp (py "town") PNone)
            (py_or (method_get comp (py "county") PNone)
               (py_or (method_get comp (py "state") PNone)
                  (Ok (PStr []))))) ;;
     Ok (city, address))
    (Ok (PStr [], PStr [])).

(** *** The [users] table *)

(** A row of [users].  [user_id] is the primary key, an [INTEGER] and
    so a 64-bit value; every other column is nullable ([None] is SQL
    [NULL]). *)
Record row : Type := {
  user_id : Z;
  user_id_range : in_int64 user_id = true;
  lat : option float;
  lon : option float;
  city : option pystr;
  address : option pystr;
  updated_at : option Z
}.

Definition table : Type := list row.

(** The database file: [None] until the [users] table is created. *)
Definition database : Type := option table.

(** [CREATE TABLE IF NOT EXISTS users (...)]. *)
Definition init_db (db : database) : database :=
  match db with
  | None => Some []
  | Some t => Some t
  end.

(** [ON CONFLICT(user_id) DO UPDATE SET col = excluded.col, ...]: the
    stored row keeps its key and takes every other column of the
    proposed row. *)
Definition do_update (old excluded : row) : row :=
  {| user_id := user_id old;
     user_id_range := user_id_range old;
     lat := lat excluded;
     lon := lon excluded;
     city := city excluded;
     address := address excluded;
     updated_at := updated_at excluded |}.

(** [INSERT ... ON CONFLICT(user_id) DO UPDATE ...]. *)
Fixpoint upsert (r : row) (t : table) : table :=
  match t with
  | [] => [r]
  | x :: t' =>
      if (user_id x =? user_id r)%Z then do_update x r :: t'
      else x :: upsert r t'
  end.

(** [save_user_location(user_id, lat, lon, city, address)]; [now] is
    [int(time.time())], the clock in seconds, which fits in 64 bits.
    [cur.execute] compiles the statement, which fails when the table is
    missing, then binds the values in order, then runs it.  A call that
    raises has written nothing. *)
Definition save_user_location (uid : Z) (la lo : float)
           (c a : pystr) (now : Z) (db : database) : result database :=
  match db with
  | None => Raise OperationalError
  | Some t =>
      id <- bind_integer uid ;;
      c' <- bind_text c ;;
      a' <- bind_text a ;;
      Ok (Some (upsert
                  {| user_id := int64_value id;
                     user_id_range := int64_range id;
                     lat := sqlite_real la;
                     lon := sqlite_real lo;
                     city := Some c';
                     address := Some a';
                     updated_at := Some now |} t))
  end.

(** The rows that [WHERE user_id = ?] selects. *)
Definition rows_of (uid : Z) (t : table) : list row :=
  filter (fun r => (user_id r =? uid)%Z) t.

(** [cur.fetchone()] after [SELECT lat, lon, city, address ...]. *)
Definition fetchone (uid : Z) (t : table)
  : option (option float * option float * option pystr * option pystr) :=
  match rows_of uid t with
  | [] => None
  | r :: _ => Some (lat r, lon r, city r, address r)
  end.

(** [float(x)] on a cell of a [REAL] column. *)
Definition py_float (x : option float) : result float :=
  match x with
  | Some f => Ok f
  | None => Raise TypeError
  end.

(** [x or ""] on a cell of a [TEXT] column. *)
Definition text_or_empty (x : option pystr) : pystr :=
  match x with
  | Some (c :: s) => c :: s
  | Some [] => []
  | None => []
  end.

(** [get_user_location(user_id)]: the statement is compiled, then
    [user_id] is bound, then the row is fetched. *)
Definition get_user_location (uid : Z) (db : database)
  : result (option (float * float * pystr * pystr)) :=
  match db with
  | None => Raise OperationalError
  | Some t =>
      id <- bind_integer uid ;;
      match fetchone (int64_value id) t with
      | Some (r0, r1, r2, r3) =>
          la <- py_float r0 ;;
          lo <- py_float r1 ;;
          Ok (Some (la, lo, text_or_empty r2, text_or_empty r3))
      | None => Ok None
      end
  end.

(** One recorded call of [save_user_location]. *)
Record save_call : Type := {
  call_user_id : Z;
  call_lat : float;
  call_lon : float;
  call_city : pystr;
  call_address : pystr;
  call_now : Z
}.

Definition run_save (c : save_call) (db : database) : result database :=
  save_user_location (call_user_id c) (call_lat c) (call_lon c)
    (call_city c) (call_address c) (call_now c) db.

(** A sequence of calls, in order. *)
Fixpoint run_saves (calls : list save_call) (db : database)
  : result database :=
  match calls with
  | [] => Ok db
  | c :: cs => db' <- run_save c db ;; run_saves cs db'
  end.

(** A call whose exception the caller catches: the database is as the
    call left it, which is as it was when the call raised. *)
Definition run_save_caught (c : save_call) (db : database) : database :=
  match run_save c db with
  | Ok db' => db'
  | Raise _ => db
  end.

(** A sequence of calls, in order, each of them made whatever became of
    the ones before. *)
Fixpoint run_saves_caught (calls : list save_call) (db : database)
  : database :=
  match calls with
  | [] => db
  | c :: cs => run_saves_caught cs (run_save_caught c db)
  end.

(** The primary-key constraint: no two rows share a [user_id]. *)
Definition primary_key (t : table) : Prop :=
  NoDup (map user_id t).

(** *** The words of the specification, for comparison *)

Definition CITY_FIELDS : list pystr :=
  [py "city"; py "town"; py "county"; py "state"].

(** The first of [keys] that is present in [comp], whatever its value;
    the empty string when none is. *)
Fixpoint first_present (comp : dict pyval) (keys : list pystr) : pyval :=
  match keys with
  | [] => PStr []
  | k :: ks =>
      match dict_lookup comp k with
      | Some v => v
      | None => first_present comp ks
      end
  end.

(** The first of [keys] whose value in [comp] is present and truthy;
    the empty string when there is none. *)
Fixpoint first_truthy (comp : dict pyval) (keys : list pystr) : pyval :=
  match keys with
  | [] => PStr []
  | k :: ks =>
      match dict_lookup comp k with
      | Some v => if truthy v then v else first_truthy comp ks
      | None => first_truthy comp ks
      end
  end.

(** A response that passes [raise_for_status] and whose body is a JSON
    object [data] whose [address] member, when present, is the object
    [comp] (an absent member stands for the empty object). *)
Definition successful_response (o : http_outcome)
           (data comp : dict pyval) : Prop :=
  exists r,
    o = HttpResponse r /\
    raise_for_status r = Ok tt /\
    json_body r = Some (PDict data) /\
    dict_get data (py "address") (PDict []) = PDict comp.

(** The failures the specification lists: a network error or a
    timeout raised by the request, a status outside 2xx, a body that
    is missing or is not JSON. *)
Definition interaction_fails (o : http_outcome) : Prop :=
  match o with
  | HttpRaises e => e = ConnectionError \/ e = Timeout
  | HttpResponse r =>
      ~ (200 <= status_code r < 300)%Z \/ json_body r = None
  end.

(** The failures the code absorbs: any [Exception] raised by the
    request, an error status (4xx or 5xx), a body that is missing or
    is not JSON. *)
Definition absorbed_failure (o : http_outcome) : Prop :=
  match o with
  | HttpRaises e => is_Exception e = true
  | HttpResponse r =>
      (400 <= status_code r < 600)%Z \/ json_body r = None
  end.

End Core.

Arguments PNone {float}.
Arguments PBool {float} b.
Arguments PInt {float} z.
Arguments PStr {float} s.
Arguments ParamStr {float} s.
Arguments HttpRaises {float} e.
Arguments user_id {float} r.
Arguments user_id_range {float} r.
Arguments lat {float} r.
Arguments lon {float} r.
Arguments city {float} r.
Arguments address {float} r.
Arguments updated_at {float} r.
Arguments call_user_id {float} s.
Arguments status_code {float} r.
Arguments json_body {float} r.

(* ------------------------------------------------------------------ *)
(** ** Concrete runs                                                   *)
(* ------------------------------------------------------------------ *)

(** Binary64 floats, with [bool(x)] as [x != 0.0]. *)
Definition binary64_bool (f : PrimFloat.float) : bool :=
  negb (PrimFloat.eqb f 0%float).

(** Binary64 floats as a [REAL] column keeps them: [NULL] for NaN,
    [0.0] for [-0.0], every other value as it is. *)
Definition binary64_real (f : PrimFloat.float) : option PrimFloat.float :=
  if PrimFloat.is_nan f then None
  else if PrimFloat.eqb f 0%float then Some 0%float
  else Some f.

(** A network that answers every request with the same outcome. *)
Definition always (o : http_outcome PrimFloat.float)
  : request PrimFloat.float -> http_outcome PrimFloat.float :=
  fun _ => o.

(** Status 300 (Multiple Choices) with a well-formed JSON object. *)
Definition status_300_outcome : http_outcome PrimFloat.float :=
  HttpResponse
    {| status_code := 300;
       json_body :=
         Some (PDict [ (py "display_name", PStr (py "Tehran, Iran")) ]) |}.

(** Status 503 with a JSON error document. *)
Definition status_503_outcome : http_outcome PrimFloat.float :=
  HttpResponse
    {| status_code := 503;
       json_body := Some (PDict [ (py "error", PStr (py "busy")) ]) |}.

(** A 200 answer whose [city] is present but empty, next to a [town]. *)
Definition empty_city_comp : dict (pyval PrimFloat.float) :=
  [ (py "city", PStr []); (py "town", PStr (py "Karaj")) ].

Definition empty_city_data : dict (pyval PrimFloat.float) :=
  [ (py "display_name", PStr (py "Karaj, Alborz, Iran"));
    (py "address", PDict empty_city_comp) ].

Definition empty_city_outcome : http_outcome PrimFloat.float :=
  HttpResponse {| status_code := 200; json_body := Some (PDict empty_city_data) |}.

(** The mocked answers of the unit tests. *)
Definition tehran_data : dict (pyval PrimFloat.float) :=
  [ (py "display_name", PStr (py "Some Address, Tehran, Iran"));
    (py "address", PDict [ (py "city", PStr (py "Tehran")) ]) ].

Definition county_comp : dict (pyval PrimFloat.float) :=
  [ (py "county", PStr (py "Tehran County")) ].

Definition county_data : dict (pyval PrimFloat.float) :=
  [ (py "display_name", PStr (py "Addr, Tehran County, Iran"));
    (py "address", PDict county_comp) ].

Definition mock_response (data : dict (pyval PrimFloat.float))
  : http_outcome PrimFloat.float :=
  HttpResponse {| status_code := 200; json_body := Some (PDict data) |}.

(** Two saves for user 123 and one for user 7. *)
Definition sample_calls : list (save_call PrimFloat.float) :=
  [ {| call_user_id := 123; call_lat := 1.1%float; call_lon := 2.2%float;
       call_city := py "CityX"; call_address := py "AddrY";
       call_now := 1700000000 |};
    {| call_user_id := 7; call_lat := 35.75%float; call_lon := 51.5%float;
       call_city := py "Tehran"; call_address := [];
       call_now := 1700000100 |};
    {| call_user_id := 123; call_lat := 3.5%float; call_lon := 4.25%float;
       call_city := py "CityZ"; call_address := py "AddrW";
       call_now := 1700000200 |} ].

(** A call with a NaN latitude, one with a lone surrogate in the city,
    and one with an identifier outside 64 bits. *)
Definition nan_call : save_call PrimFloat.float :=
  {| call_user_id := 123; call_lat := PrimFloat.nan; call_lon := 2.2%float;
     call_city := py "CityX"; call_address := py "AddrY";
     call_now := 1700000000 |}.

Definition surrogate_call : save_call PrimFloat.float :=
  {| call_user_id := 123; call_lat := 1.1%float; call_lon := 2.2%float;
     call_city := [0xD800%N]; call_address := py "AddrY";
     call_now := 1700000000 |}.

Definition overflow_call : save_call PrimFloat.float :=
  {| call_user_id := 18446744073709551616;
     call_lat := 1.1%float; call_lon := 2.2%float;
     call_city := py "CityX"; call_address := py "AddrY";
     call_now := 1700000000 |}.

(** The same calls, with two calls that raise among them. *)
Definition mixed_calls : list (save_call PrimFloat.float) :=
  surrogate_call :: sample_calls ++ [overflow_call].

(** A row whose city and address are [NULL]. *)
Definition null_text_row : row PrimFloat.float :=
  {| user_id := 42; user_id_range := eq_refl;
     lat := Some 35.75%float; lon := Some 51.5%float;
     city := None; address := None; updated_at := Some 1700000000%Z |}.

(** The row that a save for user 7 writes. *)
Definition tehran_row : row PrimFloat.float :=
  {| user_id := 7; user_id_range := eq_refl;
     lat := Some 35.75%float; lon := Some 51.5%float;
     city := Some (py "Tehran"); address := Some [];
     updated_at := Some 1700000100%Z |}.

(* ------------------------------------------------------------------ *)
(** ** Histories of the store                                          *)
(* ------------------------------------------------------------------ *)

Section StoreHistory.

Variable float : Type.

(** The last call of a history that names [uid], if any. *)
Fixpoint last_call (uid : Z) (calls : list (save_call float))
  : option (save_call float) :=
  match calls with
  | [] => None
  | c :: cs =>
      match last_call uid cs with
      | Some c' => Some c'
      | None => if (call_user_id c =? uid)%Z then Some c else None
      end
  end.

(** What a call asks to store. *)
Definition call_location (c : save_call float)
  : float * float * pystr * pystr :=
  (call_lat c, call_lon c, call_city c, call_address c).

(** Whether the table holds a row for [uid]. *)
Definition has_row (uid : Z) (t : table float) : bool :=
  existsb (fun r => (user_id r =? uid)%Z) t.

(** The calls whose values can all be bound: a 64-bit identifier and
    two texts free of surrogates. *)
Definition call_binds (c : save_call float) : bool :=
  in_int64 (call_user_id c)
  && forallb unicode_scalar (call_city c)
  && forallb unicode_scalar (call_address c).

End StoreHistory.

(* ------------------------------------------------------------------ *)
(** ** Alphabets                                                       *)
(* ------------------------------------------------------------------ *)

(** The characters that a quoted string is made of: the unreserved
    ones, the percent sign and the plus sign. *)
Definition url_safe_char (c : N) : bool :=
  existsb (N.eqb c) (map chr_of_byte ALWAYS_SAFE)
  || (c =? PERCENT)%N || (c =? PLUS)%N.

Definition is_ascii (c : N) : bool := (c <? 0x80)%N.

(* ------------------------------------------------------------------ *)
(** ** Entry point                                                     *)
(* ------------------------------------------------------------------ *)

(** The process environment, and [os.getenv(name, default)]. *)
Definition getenv (environ : dict pystr) (name default : pystr) : pystr :=
  dict_get environ name default.

Definition TOKEN_PLACEHOLDER : pystr := py "PUT-YOUR-TOKEN-HERE".

Definition TELEGRAM_TOKEN (environ : dict pystr) : pystr :=
  getenv environ (py "TELEGRAM_TOKEN") TOKEN_PLACEHOLDER.

Section EntryPoint.

Variable float : Type.

(** Where [main] ends up: in [sys.exit(code)] after printing a line, in
    the test runner, in the demo, in an exception raised over a
    database, or polling for updates over a database. *)
Inductive started : Type :=
| SysExit (code : Z) (printed : pystr)
| RunTests
| RunDemo
| Raises (e : exn) (db : database float)
| RunPolling (db : database float).

(** [run_bot()], up to the start of polling.  Between [init_db()] and
    [run_polling] the application is built, which raises [InvalidToken]
    on an empty token. *)
Definition run_bot (environ : dict pystr) (db : database float) : started :=
  if pystr_eqb (TELEGRAM_TOKEN environ) TOKEN_PLACEHOLDER then
    SysExit 1 (py "[!] Please set TELEGRAM_TOKEN environment variable.")
  else
    let db' := init_db db in
    match TELEGRAM_TOKEN environ with
    | [] => Raises InvalidToken db'
    | _ :: _ => RunPolling db'
    end.

(** The default of [--mode]. *)
Definition default_mode (TELEGRAM_AVAILABLE : bool) : pystr :=
  if TELEGRAM_AVAILABLE then py "bot" else py "demo".

(** [main(argv)], from the parsed [--mode] on: [mode] is one of the
    three choices when the flag is given, [None] when it is not. *)
Definition main (TELEGRAM_AVAILABLE : bool) (environ : dict pystr)
           (mode : option pystr) (db : database float) : started :=
  let args_mode :=
    match mode with
    | Some m => m
    | None => default_mode TELEGRAM_AVAILABLE
    end in
  if pystr_eqb args_mode (py "test") then RunTests
  else if pystr_eqb args_mode (py "demo") then RunDemo
  else if negb TELEGRAM_AVAILABLE then
    SysExit 1 (py "[!] python-telegram-bot not installed. Install it or use --mode demo/test.")
  else run_bot environ db.

End EntryPoint.

Arguments SysExit {float} code printed.
Arguments RunTests {float}.
Arguments RunDemo {float}.

(* ------------------------------------------------------------------ *)
(** ** Chat handlers                                                   *)
(* ------------------------------------------------------------------ *)

Definition NEWLINE : N := 0x0A.

(** What a reply carries besides its text. *)
Inductive markup : Type :=
| NoMarkup
| ReplyKeyboardRemove
| InlineKeyboardMarkup (keyboard : list (list (pystr * pystr))).

(** One [reply_text] call: the text and the [reply_markup]. *)
Record outgoing : Type := {
  text : pystr;
  reply_markup : markup
}.

Section Handlers.

Variable float : Type.
Variable float_bool : float -> bool.
Variable sqlite_real : float -> option float.

(** The world around a handler: the network, the Telegram API (a reply
    is delivered or the call raises), [str] as an f-string applies it to
    a decoded value and to a float, and the cell that the database driver
    stores for a value bound to a [TEXT] column (or what it raises). *)
Variable requests_get : request float -> http_outcome float.
Variable deliver : outgoing -> result unit.
Variable py_str : pyval float -> pystr.
Variable float_str : float -> pystr.
Variable sqlite_text : pyval float -> result (option pystr).

(** The state a handler acts on: the database and the replies
    delivered so far. *)
Record bot_state : Type := {
  bot_db : database float;
  bot_sent : list outgoing
}.

(** An action: a result and the state it leaves, also when it raises. *)
Definition action (A : Type) : Type := bot_state -> result A * bot_state.

Definition and_then {A B : Type} (m : action A) (k : A -> action B)
  : action B :=
  fun s =>
    match m s with
    | (Ok a, s') => k a s'
    | (Raise e, s') => (Raise e, s')
    end.

(** A computation that does not touch the state. *)
Definition pure_step {A : Type} (r : result A) : action A :=
  fun s => (r, s).

(** A database operation. *)
Definition db_step (f : database float -> result (database float))
  : action unit :=
  fun s =>
    match f (bot_db s) with
    | Ok d => (Ok tt, {| bot_db := d; bot_sent := bot_sent s |})
    | Raise e => (Raise e, s)
    end.

(** [await update.message.reply_text(text, reply_markup=...)]. *)
Definition reply_text (m : outgoing) : action unit :=
  fun s =>
    match deliver m with
    | Ok _ => (Ok tt, {| bot_db := bot_db s; bot_sent := bot_sent s ++ [m] |})
    | Raise e => (Raise e, s)
    end.

(** [save_user_location] as a handler calls it, with the city and the
    address as the geocoder returned them: the statement is compiled
    first, then the values are bound in order. *)
Definition save_user_location_values (uid : Z) (la lo : float)
           (c a : pyval float) (now : Z) (db : database float)
  : result (database float) :=
  match db with
  | None => Raise OperationalError
  | Some t =>
      id <- bind_integer uid ;;
      c' <- sqlite_text c ;;
      a' <- sqlite_text a ;;
      Ok (Some (upsert
                  {| user_id := int64_value id;
                     user_id_range := int64_range id;
                     lat := sqlite_real la;
                     lon := sqlite_real lo;
                     city := c';
                     address := a';
                     updated_at := Some now |} t))
  end.

(** The hint that [build_inline_pairs] receives (and does not read). *)
Definition city_hint (v : pyval float) : option pystr :=
  match v with
  | PStr s => Some s
  | _ => None
  end.

(** [x or placeholder]. *)
Definition or_placeholder (v : pyval float) (placeholder : pystr)
  : pyval float :=
  if truthy float_bool v then v else PStr placeholder.

Definition UNKNOWN_CITY : pystr := py "شهر نامشخص".
Definition UNKNOWN_ADDRESS : pystr := py "آدرس نامشخص".

Definition location_missing_reply : outgoing :=
  {| text := py "لوکیشن دریافت نشد. دوباره امتحان کن.";
     reply_markup := NoMarkup |}.

(** The confirmation that follows a save. *)
Definition location_saved_reply (city_txt address_txt : pyval float)
  : outgoing :=
  {| text :=
       py "✅ لوکیشن ذخیره شد."
    ++ [NEWLINE]
    ++ py "🏙 شهر: "
    ++ py_str city_txt
    ++ [NEWLINE]
    ++ py "📫 آدرس: "
    ++ py_str address_txt
    ++ [NEWLINE]
    ++ [NEWLINE]
    ++ py "حالا یکی از دسته‌بندی‌ها رو انتخاب کن:";
     reply_markup := ReplyKeyboardRemove |}.

(** One button per row. *)
Definition categories_reply (pairs : list (pystr * pystr)) : outgoing :=
  {| text := py "👇 دسته‌بندی‌ها:";
     reply_markup := InlineKeyboardMarkup (map (fun p => [p]) pairs) |}.

(** [handle_location(update, context)]: [loc] is
    [update.message.location], [uid] is [update.effective_user.id], [now]
    is the clock at the save. *)
Definition handle_location (loc : option (float * float)) (uid : Z) (now : Z)
  : action unit :=
  match loc with
  | None => reply_text location_missing_reply
  | Some (la, lo) =>
      and_then (pure_step (reverse_geocode float_bool requests_get la lo))
        (fun geo =>
           let city := fst geo in
           let address := snd geo in
           and_then (db_step (fun db => Ok (init_db db)))
             (fun _ =>
                and_then
                  (db_step (save_user_location_values uid la lo city address now))
                  (fun _ =>
                     let city_txt :=
                       if truthy float_bool city then city
                       else PStr UNKNOWN_CITY in
                     let address_txt :=
                       if truthy float_bool address then address
                       else PStr UNKNOWN_ADDRESS in
                     and_then
                       (pure_step (build_inline_pairs (city_hint city_txt)))
                       (fun pairs =>
                          and_then
                            (reply_text
                               (location_saved_reply city_txt address_txt))
                            (fun _ => reply_text (categories_reply pairs))))))
  end.

Definition no_location_yet_reply : outgoing :=
  {| text := py "هنوز لوکیشن ثبت نکردی. /start رو بزن و لوکیشن بده.";
     reply_markup := NoMarkup |}.

Definition current_location_reply (la lo : float) (c a : pystr) : outgoing :=
  {| text :=
       py "📍 لوکیشن فعلی تو:"
    ++ [NEWLINE]
    ++ py "Lat: "
    ++ float_str la
    ++ [NEWLINE]
    ++ py "Lon: "
    ++ float_str lo
    ++ [NEWLINE]
    ++ py "🏙 "
    ++ c
    ++ [NEWLINE]
    ++ py "📫 "
    ++ a;
     reply_markup := NoMarkup |}.

(** [mylocation(update, context)]. *)
Definition mylocation (uid : Z) : action unit :=
  and_then (fun s => (get_user_location uid (bot_db s), s))
    (fun row =>
       match row with
       | None => reply_text no_location_yet_reply
       | Some (la, lo, c, a) => reply_text (current_location_reply la lo c a)
       end).

End Handlers.

Arguments bot_db {float} b.
Arguments bot_sent {float} b.

(* ------------------------------------------------------------------ *)
(** ** Concrete runs of the handlers                                   *)
(* ------------------------------------------------------------------ *)

(** A Telegram API that delivers every reply, and one that is down. *)
Definition delivered (m : outgoing) : result unit := Ok tt.
Definition unreachable (m : outgoing) : result unit := Raise ConnectionError.

(** [str] on the strings, and a fixed rendering of the floats: enough
    for the runs below. *)
Definition str_of_text (v : pyval PrimFloat.float) : pystr :=
  match v with
  | PStr s => s
  | _ => []
  end.

Definition float_placeholder (x : PrimFloat.float) : pystr := py "<float>".

(** A driver for the values that the runs below bind: it stores a
    string as it is and [None] as [NULL]; it is not asked for anything
    else, and then raises. *)
Definition text_cell (v : pyval PrimFloat.float) : result (option pystr) :=
  match v with
  | PStr s => s' <- bind_text s ;; Ok (Some s')
  | PNone => Ok None
  | _ => Raise OtherException
  end.

Definition empty_state : bot_state PrimFloat.float :=
  {| bot_db := None; bot_sent := [] |}.

(** A row whose latitude is [NULL]. *)
Definition null_lat_row : row PrimFloat.float :=
  {| user_id := 42; user_id_range := eq_refl;
     lat := None; lon := Some 51.5%float;
     city := None; address := None; updated_at := None |}.

(** A 200 answer whose body is a JSON array. *)
Definition array_body_response : response PrimFloat.float :=
  {| status_code := 200; json_body := Some (PList []) |}.


(* ================================================================== *)
(** * Properties                                                       *)
(* ================================================================== *)

(* ------------------------------------------------------------------ *)
(** ** Strings and dictionaries                                        *)
(* ------------------------------------------------------------------ *)

Lemma pystr_eqb_eq (a b : pystr) : pystr_eqb a b = true <-> a = b.
Proof.
  revert b; induction a as [|x a IH]; intros [|y b]; simpl; split;
    try discriminate; try reflexivity.
  - intros H. apply andb_true_iff in H as [Hx Hab].
    apply N.eqb_eq in Hx. apply IH in Hab. congruence.
  - intros H. injection H as -> ->.
    rewrite N.eqb_refl. simpl. apply IH. reflexivity.
Qed.

Lemma pystr_eqb_refl (a : pystr) : pystr_eqb a a = true.
Proof. apply pystr_eqb_eq. reflexivity. Qed.

Lemma dict_lookup_In (V : Type) (d : dict V) (k : pystr) (v : V) :
  dict_lookup d k = Some v -> In (k, v) d.
Proof.
  induction d as [|[k' v'] d IH]; simpl; [discriminate|].
  destruct (pystr_eqb k' k) eqn:E.
  - intros H. injection H as ->. apply pystr_eqb_eq in E. subst. now left.
  - intros H. right. now apply IH.
Qed.

(** The keys of the catalogue are exactly the five category keys. *)
Lemma CATEGORY_QUERIES_keys (key q : pystr) :
  dict_lookup CATEGORY_QUERIES key = Some q ->
  In key [py "pizza"; py "kebab"; py "burger"; py "sandwich"; py "irani"].
Proof.
  intros H. apply dict_lookup_In in H.
  apply (in_map fst) in H. exact H.
Qed.

Ltac each_category H :=
  apply dict_lookup_In in H; simpl in H;
  repeat (destruct H as [H|H]; [injection H as <- <-|]);
  [ .. | contradiction ].

(* ------------------------------------------------------------------ *)
(** ** UTF-8 and percent-encoding                                      *)
(* ------------------------------------------------------------------ *)

Lemma utf8_decode_unfold (bs : list byte) :
  utf8_decode bs
  = match bs with
    | [] => Some []
    | _ =>
        match utf8_decode_step bs with
        | Some (c, rest) => option_map (cons c) (utf8_decode rest)
        | None => None
        end
    end.
Proof.
  destruct bs as [|b0 r0]; [reflexivity|].
  cbn [utf8_decode utf8_decode_step]. cbv zeta.
  repeat match goal with
         | |- context [if ?b then _ else _] => destruct b
         | |- context [match ?l with [] => _ | _ :: _ => _ end] => destruct l
         | |- context [match utf8_cont ?b with Some _ => _ | None => _ end] =>
             destruct (utf8_cont b)
         end; reflexivity.
Qed.

Lemma utf8_decode_step_app (bs rest : list byte) (c : N) (r : list byte) :
  utf8_decode_step bs = Some (c, r) ->
  utf8_decode_step (bs ++ rest) = Some (c, r ++ rest).
Proof.
  destruct bs as [|b0 r0]; [discriminate|].
  cbn [utf8_decode_step app]. cbv zeta.
  repeat match goal with
         | |- context [if ?b then _ else _] => destruct b
         | |- context [match ?l with [] => _ | _ :: _ => _ end] =>
             is_var l; destruct l; cbn [app]
         | |- context [match utf8_cont ?b with Some _ => _ | None => _ end] =>
             destruct (utf8_cont b)
         end; intros H; try discriminate H; injection H as <- <-; reflexivity.
Qed.

Ltac lia_div := zify; Z.to_euclidean_division_equations; lia.

Lemma all_from_spec (f : N -> bool) (n : nat) (c x : N) :
  all_from f n c = true ->
  (c <= x < c + N.of_nat n)%N -> f x = true.
Proof.
  revert c. induction n as [|k IH]; intros c H Hx; [lia|].
  simpl in H. apply andb_true_iff in H as [Hc Hk].
  destruct (N.eq_dec x c) as [->|Hne]; [exact Hc|].
  apply (IH (N.succ c)); [exact Hk|lia].
Qed.

Lemma to_N_byte_of_N (n : N) : (n < 256)%N -> Byte.to_N (byte_of_N n) = n.
Proof.
  intros H. unfold byte_of_N.
  destruct (Byte.of_N n) as [b|] eqn:E.
  - now apply Byte.to_of_N.
  - apply Byte.of_N_None_iff in E. lia.
Qed.

(** The bytes that the encoder writes, read as numbers. *)
Lemma lead_byte (tag width z : N) :
  In (tag, width) [(0xC0, 32); (0xE0, 16); (0xF0, 8)]%N ->
  (z < width)%N ->
  Byte.to_N (byte_of_N (N.lor tag z)) = (tag + z)%N.
Proof.
  intros Hin Hz.
  assert (forall t w, (z < w)%N ->
          all_from
            (fun x => (Byte.to_N (byte_of_N (N.lor t x)) =? t + x)%N)
            (N.to_nat w) 0 = true ->
          Byte.to_N (byte_of_N (N.lor t z)) = (t + z)%N) as Hall.
  { intros t w Hw Hchk. apply N.eqb_eq.
    apply (all_from_spec _ _ Hchk (x := z)). lia. }
  simpl in Hin.
  destruct Hin as [E|[E|[E|[]]]]; injection E as <- <-;
    apply (Hall _ _ Hz); reflexivity.
Qed.

Lemma cont_byte (z : N) :
  (z < 64)%N -> utf8_cont (byte_of_N (N.lor 0x80 z)) = Some z.
Proof.
  intros Hz.
  assert (all_from
            (fun x => match utf8_cont (byte_of_N (N.lor 0x80 x)) with
                      | Some y => (y =? x)%N
                      | None => false
                      end) 64 0 = true) as Hchk by reflexivity.
  pose proof (all_from_spec _ _ Hchk (x := z)) as H.
  cbv beta in H.
  destruct (utf8_cont (byte_of_N (N.lor 128 z))) as [y|].
  - f_equal. apply N.eqb_eq. apply H. lia.
  - discriminate H. lia.
Qed.

Lemma land_63 (n : N) : N.land n 0x3F = (n mod 64)%N.
Proof. exact (N.land_ones n 6). Qed.

Lemma shiftr_div (n k : N) : N.shiftr n k = (n / 2 ^ k)%N.
Proof. apply N.shiftr_div_pow2. Qed.

Ltac decode_tests :=
  repeat match goal with
         | |- context [(?a <? ?b)%N] =>
             destruct (N.ltb_spec a b); try lia_div
         | |- context [(?a <=? ?b)%N] =>
             destruct (N.leb_spec a b); try lia_div
         end;
  cbn [andb negb]; try (f_equal; f_equal; lia_div).

Lemma Some_inj (A : Type) (a b : A) : Some a = Some b -> a = b.
Proof. congruence. Qed.

(** A code point that the encoder accepts is the first, and only, code
    point that the decoder reads from its bytes. *)
Lemma utf8_decode_step_encode_char (c : N) (bs : list byte) :
  utf8_encode_char c = Some bs -> utf8_decode_step bs = Some (c, []).
Proof.
  unfold utf8_encode_char.
  rewrite !land_63, !shiftr_div.
  change (2 ^ 6)%N with 64%N. change (2 ^ 12)%N with 4096%N.
  change (2 ^ 18)%N with 262144%N.
  destruct (N.ltb_spec c 0x80) as [H1|H1];
    [|destruct (N.ltb_spec c 0x800) as [H2|H2];
      [|destruct (N.ltb_spec c 0x10000) as [H3|H3];
        [destruct (N.leb_spec 0xD800 c) as [H4|H4];
         [destruct (N.leb_spec c 0xDFFF) as [H5|H5]; [discriminate|]|]
        |destruct (N.ltb_spec c 0x110000) as [H4|H4]; [|discriminate]]]];
    cbn [andb]; intros E; apply Some_inj in E; subst bs;
    unfold utf8_decode_step; cbv zeta.
  - rewrite to_N_byte_of_N by lia. decode_tests.
  - rewrite (@lead_byte 0xC0 32) by (simpl; auto || lia_div).
    rewrite cont_byte by lia_div.
    rewrite N.land_ones with (n := 5%N), N.shiftl_mul_pow2.
    change (2 ^ 5)%N with 32%N. change (2 ^ 6)%N with 64%N.
    decode_tests.
  - rewrite (@lead_byte 0xE0 16) by (simpl; auto || lia_div).
    rewrite !cont_byte by lia_div.
    rewrite N.land_ones with (n := 4%N), !N.shiftl_mul_pow2.
    change (2 ^ 4)%N with 16%N. change (2 ^ 6)%N with 64%N.
    change (2 ^ 12)%N with 4096%N.
    decode_tests.
  - rewrite (@lead_byte 0xE0 16) by (simpl; auto || lia_div).
    rewrite !cont_byte by lia_div.
    rewrite N.land_ones with (n := 4%N), !N.shiftl_mul_pow2.
    change (2 ^ 4)%N with 16%N. change (2 ^ 6)%N with 64%N.
    change (2 ^ 12)%N with 4096%N.
    decode_tests.
  - rewrite (@lead_byte 0xF0 8) by (simpl; auto || lia_div).
    rewrite !cont_byte by lia_div.
    rewrite N.land_ones with (n := 3%N), !N.shiftl_mul_pow2.
    change (2 ^ 3)%N with 8%N. change (2 ^ 6)%N with 64%N.
    change (2 ^ 12)%N with 4096%N. change (2 ^ 18)%N with 262144%N.
    decode_tests.
Qed.

(** Decoding reads back one encoded code point and goes on with what
    follows it. *)
Lemma utf8_decode_encode_char (c : N) (bs rest : list byte) :
  utf8_encode_char c = Some bs ->
  utf8_decode (bs ++ rest) = option_map (cons c) (utf8_decode rest).
Proof.
  intros Henc.
  pose proof (utf8_decode_step_encode_char _ Henc) as Hstep.
  rewrite utf8_decode_unfold.
  rewrite (utf8_decode_step_app _ rest Hstep).
  destruct bs; [discriminate Hstep|reflexivity].
Qed.

Lemma utf8_decode_encode (s : pystr) (bs : list byte) :
  utf8_encode s = Ok bs -> utf8_decode bs = Some s.
Proof.
  revert bs. induction s as [|c s IH]; intros bs; simpl.
  - intros H. injection H as <-. reflexivity.
  - destruct (utf8_encode_char c) as [cb|] eqn:Hc; [|discriminate].
    destruct (utf8_encode s) as [rest|]; [|discriminate].
    intros H. injection H as <-.
    rewrite (utf8_decode_encode_char _ _ Hc), (IH rest eq_refl).
    reflexivity.
Qed.

(** One quoted byte, with a space kept and written as a plus sign, is
    read back as that byte. *)
Lemma unquote_quoter_plus (b : byte) (rest : pystr) :
  unquote_to_bytes
    (replace_char PLUS SPACE
       (replace_char SPACE PLUS (quoter [byte_of_N SPACE] b)) ++ rest)
  = option_map (cons b) (unquote_to_bytes rest).
Proof. destruct b; reflexivity. Qed.

Lemma unquote_quoter (b : byte) (rest : pystr) :
  unquote_to_bytes (replace_char PLUS SPACE (quoter [] b) ++ rest)
  = option_map (cons b) (unquote_to_bytes rest).
Proof. destruct b; reflexivity. Qed.

Lemma replace_char_app (old new : N) (s1 s2 : pystr) :
  replace_char old new (s1 ++ s2)
  = replace_char old new s1 ++ replace_char old new s2.
Proof. apply map_app. Qed.

Lemma unquote_quote_from_bytes_plus (bs : list byte) :
  unquote_to_bytes
    (replace_char PLUS SPACE
       (replace_char SPACE PLUS (quote_from_bytes bs [byte_of_N SPACE])))
  = Some bs.
Proof.
  unfold quote_from_bytes.
  induction bs as [|b bs IH]; [reflexivity|].
  cbn [map List.concat].
  rewrite !replace_char_app, unquote_quoter_plus, IH. reflexivity.
Qed.

Lemma unquote_quote_from_bytes (bs : list byte) :
  unquote_to_bytes (replace_char PLUS SPACE (quote_from_bytes bs [])) = Some bs.
Proof.
  unfold quote_from_bytes.
  induction bs as [|b bs IH]; [reflexivity|].
  cbn [map List.concat].
  rewrite !replace_char_app, unquote_quoter, IH. reflexivity.
Qed.

(** Whatever text [quote_plus] accepts, decoding its result gives the
    text back. *)
Theorem quote_plus_round_trip (s e : pystr) :
  quote_plus s = Ok e -> unquote_plus e = Some s.
Proof.
  unfold quote_plus, quote, unquote_plus.
  destruct s as [|c s].
  - simpl. intros H. injection H as <-. reflexivity.
  - destruct (utf8_encode (c :: s)) as [bs|] eqn:Henc;
      destruct (negb (contains_char SPACE (c :: s))); cbn [bind];
      try discriminate; intros H; injection H as <-.
    + rewrite unquote_quote_from_bytes. now apply utf8_decode_encode.
    + rewrite unquote_quote_from_bytes_plus. now apply utf8_decode_encode.
Qed.

Lemma utf8_encode_char_scalar (c : N) :
  unicode_scalar c = true -> exists bs, utf8_encode_char c = Some bs.
Proof.
  unfold unicode_scalar, utf8_encode_char. intros H.
  destruct (N.ltb_spec c 0x80); [eauto|].
  destruct (N.ltb_spec c 0x800); [eauto|].
  destruct (N.ltb_spec c 0xD800), (N.ltb_spec 0xDFFF c),
    (N.ltb_spec c 0x110000), (N.ltb_spec c 0x10000),
    (N.leb_spec 0xD800 c), (N.leb_spec c 0xDFFF);
    simpl in *; try discriminate; try lia; eauto.
Qed.

Lemma utf8_encode_char_not_scalar (c : N) :
  unicode_scalar c = false -> utf8_encode_char c = None.
Proof.
  unfold unicode_scalar, utf8_encode_char. intros H.
  destruct (N.ltb_spec c 0xD800), (N.ltb_spec 0xDFFF c),
    (N.ltb_spec c 0x110000); simpl in H; try discriminate;
    destruct (N.ltb_spec c 0x80), (N.ltb_spec c 0x800),
      (N.ltb_spec c 0x10000), (N.leb_spec 0xD800 c), (N.leb_spec c 0xDFFF);
    simpl; try lia; reflexivity.
Qed.

(** UTF-8 encoding succeeds on scalar values and on nothing else. *)
Lemma utf8_encode_defined (s : pystr) :
  if forallb unicode_scalar s
  then exists bs, utf8_encode s = Ok bs
  else utf8_encode s = Raise UnicodeEncodeError.
Proof.
  induction s as [|c s IH]; simpl; [eauto|].
  destruct (unicode_scalar c) eqn:Hc; simpl.
  - destruct (utf8_encode_char_scalar _ Hc) as [bs ->].
    destruct (forallb unicode_scalar s).
    + destruct IH as [rest ->]. simpl. eauto.
    + now rewrite IH.
  - now rewrite (utf8_encode_char_not_scalar _ Hc).
Qed.

(* ------------------------------------------------------------------ *)
(** ** The unit tests of the link builder                              *)
(* ------------------------------------------------------------------ *)

Example test_build_snappfood_link_encoding :
  build_snappfood_link (py "pizza") (Some (py "تهران"))
  = Ok (py "https://snappfood.ir/search?query=%D9%BE%DB%8C%D8%AA%D8%B2%D8%A7").
Proof. vm_compute. reflexivity. Qed.

Example test_unknown_category_yields_empty_query :
  build_snappfood_link (py "unknown") None
  = Ok (py "https://snappfood.ir/search?query=").
Proof. vm_compute. reflexivity. Qed.

Example quote_plus_reserved :
  quote_plus (py "a b+c/~") = Ok (py "a+b%2Bc%2F~").
Proof. vm_compute. reflexivity. Qed.

(* ------------------------------------------------------------------ *)
(** ** Link catalogue                                                  *)
(* ------------------------------------------------------------------ *)

(** C7. For every category key, [build_snappfood_link] returns the base
    address followed by [/search?query=] and the percent-encoded query
    (the encoding is the one [quote_plus] gives, and it decodes back to
    the query); for a key outside the five-entry mapping the query is the
    empty string, no error is raised, and the address ends with
    [/search?query=]. *)
Theorem build_snappfood_link_form (key : pystr) (city : option pystr) :
  exists enc,
    quote_plus (dict_get CATEGORY_QUERIES key []) = Ok enc /\
    unquote_plus enc = Some (dict_get CATEGORY_QUERIES key []) /\
    build_snappfood_link key city
    = Ok (BASE_WEB ++ py "/search?query=" ++ enc) /\
    (dict_lookup CATEGORY_QUERIES key = None ->
     enc = [] /\
     build_snappfood_link key city = Ok (BASE_WEB ++ py "/search?query=") /\
     endswith (BASE_WEB ++ py "/search?query=") (py "/search?query=") = true).
Proof.
  unfold build_snappfood_link, dict_get.
  destruct (dict_lookup CATEGORY_QUERIES key) as [q|] eqn:E.
  - each_category E;
      (eexists; split; [vm_compute; reflexivity|];
       split; [vm_compute; reflexivity|];
       split; [vm_compute; reflexivity|discriminate]).
  - exists []. repeat split; vm_compute; reflexivity.
Qed.

(** C6. Whatever the city hint, [build_inline_pairs] returns exactly five
    pairs, for pizza, kebab, burger, sandwich and the general cuisine in
    that order; each label opens with an emoji, each address is the one
    [build_snappfood_link] gives for the key, and each address starts with
    the base address. *)
Theorem build_inline_pairs_catalogue (city : option pystr) :
  exists pairs,
    build_inline_pairs city = Ok pairs /\
    List.length pairs = 5 /\
    map fst pairs
    = [py "🍕 پیتزا ارزان"; py "🍖 کباب ارزان"; py "🍔 برگر ارزان";
       py "🥪 ساندویچ ارزان"; py "🍽 ایرانی ارزان"] /\
    map (fun p => Ok (snd p)) pairs
    = map (fun key => build_snappfood_link key city)
        [py "pizza"; py "kebab"; py "burger"; py "sandwich"; py "irani"] /\
    Forall (fun p => emoji_prefixed (fst p) = true /\
                     startswith (snd p) BASE_WEB = true) pairs.
Proof.
  eexists. split; [vm_compute; reflexivity|].
  split; [reflexivity|].
  split; [vm_compute; reflexivity|].
  split; [vm_compute; reflexivity|].
  repeat constructor.
Qed.

(** C8. The city hint has no effect: for every category key and any two
    hints (present or not), [build_snappfood_link] returns the same
    address and [build_inline_pairs] the same sequence of pairs. *)
Theorem city_hint_has_no_effect (key : pystr) (city1 city2 : option pystr) :
  build_snappfood_link key city1 = build_snappfood_link key city2 /\
  build_inline_pairs city1 = build_inline_pairs city2.
Proof. split; reflexivity. Qed.

(** C9. For every key of the mapping, the address is built without error
    and decoding its [query] parameter (plus to space, percent-decoding,
    UTF-8) gives back the localized query text. *)
Theorem query_round_trip (key q : pystr) (city : option pystr) :
  dict_lookup CATEGORY_QUERIES key = Some q ->
  exists url,
    build_snappfood_link key city = Ok url /\
    query_value (py "query") url = Some q.
Proof.
  intros E.
  each_category E;
    (eexists; split; [vm_compute; reflexivity|vm_compute; reflexivity]).
Qed.

Lemma query_round_trip_witness :
  exists url,
    build_snappfood_link (py "pizza") None = Ok url /\
    query_value (py "query") url = Some (py "پیتزا").
Proof.
  apply (@query_round_trip (py "pizza") (py "پیتزا") None).
  vm_compute. reflexivity.
Defined.

(* ------------------------------------------------------------------ *)
(** ** Location store                                                  *)
(* ------------------------------------------------------------------ *)

Section StoreProperties.

Variable float : Type.
Variable sqlite_real : float -> option float.

Implicit Types (t : table float) (r x : row float) (db : database float).

Lemma in_int64_irrelevant (z : Z) (H1 H2 : in_int64 z = true) : H1 = H2.
Proof. apply Eqdep_dec.UIP_dec, Bool.bool_dec. Qed.

Lemma bind_integer_in (z : Z) :
  in_int64 z = true -> exists i, bind_integer z = Ok i /\ int64_value i = z.
Proof.
  intros H. unfold bind_integer.
  destruct (Bool.bool_dec (in_int64 z) true) as [H'|H']; [|contradiction].
  eexists. split; reflexivity.
Qed.

Lemma bind_integer_out (z : Z) :
  in_int64 z = false -> bind_integer z = Raise OverflowError.
Proof.
  intros H. unfold bind_integer.
  destruct (Bool.bool_dec (in_int64 z) true) as [H'|H']; [congruence|].
  reflexivity.
Qed.

Lemma bind_integer_ok (z : Z) (i : int64) :
  bind_integer z = Ok i -> int64_value i = z /\ in_int64 z = true.
Proof.
  unfold bind_integer.
  destruct (Bool.bool_dec (in_int64 z) true) as [H'|H']; [|discriminate].
  intros H. injection H as <-. split; [reflexivity|assumption].
Qed.

Lemma bind_text_scalar (s : pystr) :
  forallb unicode_scalar s = true -> bind_text s = Ok s.
Proof.
  intros H. pose proof (utf8_encode_defined s) as E. rewrite H in E.
  destruct E as [bs E]. unfold bind_text. now rewrite E.
Qed.

Lemma bind_text_ok (s s' : pystr) :
  bind_text s = Ok s' -> s' = s /\ forallb unicode_scalar s = true.
Proof.
  pose proof (utf8_encode_defined s) as E. unfold bind_text.
  destruct (forallb unicode_scalar s).
  - destruct E as [bs ->]. simpl. intros H. injection H as <-. now split.
  - rewrite E. discriminate.
Qed.

Lemma do_update_same_key x r :
  user_id x = user_id r -> do_update x r = r.
Proof.
  destruct x as [k Hk ? ? ? ? ?], r as [k' Hk' ? ? ? ? ?].
  unfold do_update. simpl. intros ->.
  now rewrite (@in_int64_irrelevant _ Hk Hk').
Qed.

Lemma rows_of_absent uid t :
  ~ In uid (map user_id t) -> rows_of uid t = [].
Proof.
  induction t as [|x t IH]; simpl; intros H; [reflexivity|].
  destruct (Z.eqb_spec (user_id x) uid) as [E|E].
  - exfalso. apply H. now left.
  - apply IH. intros Hin. apply H. now right.
Qed.

Lemma primary_key_rows_of uid t :
  primary_key t -> List.length (rows_of uid t) <= 1.
Proof.
  unfold primary_key.
  induction t as [|x t IH]; simpl; intros H; [lia|].
  inversion H as [|k ks Hnotin Hnodup]; subst.
  destruct (Z.eqb_spec (user_id x) uid) as [E|E].
  - subst. fold (rows_of (user_id x) t).
    rewrite rows_of_absent by assumption. simpl. lia.
  - now apply IH.
Qed.

(** A row that the query selects for [uid] has [uid] for its key, and
    so [uid] is a 64-bit value. *)
Lemma rows_of_in_int64 uid t r :
  In r (rows_of uid t) -> in_int64 uid = true.
Proof.
  unfold rows_of. intros H. apply filter_In in H as [_ H].
  apply Z.eqb_eq in H. subst uid. apply user_id_range.
Qed.

(** The keys after an upsert: unchanged on a conflict, one more at the
    end otherwise. *)
Lemma upsert_keys r t :
  map user_id (upsert r t)
  = if existsb (fun k => (k =? user_id r)%Z) (map user_id t)
    then map user_id t
    else map user_id t ++ [user_id r].
Proof.
  induction t as [|x t IH]; simpl; [reflexivity|].
  destruct (Z.eqb_spec (user_id x) (user_id r)) as [E|E]; simpl.
  - reflexivity.
  - rewrite IH. now destruct (existsb _ _).
Qed.

Lemma upsert_primary_key r t :
  primary_key t -> primary_key (upsert r t).
Proof.
  unfold primary_key. intros H. rewrite upsert_keys.
  destruct (existsb _ _) eqn:E; [assumption|].
  apply NoDup_app; [assumption|repeat constructor; intros []|].
  intros k Hin [Hk|[]].
  assert (existsb (fun k' => (k' =? user_id r)%Z) (map user_id t) = true) as C.
  { apply existsb_exists. exists k. split; [assumption|]. subst k. apply Z.eqb_refl. }
  congruence.
Qed.

(** After an upsert the first row selected for the key is the proposed
    row, whatever the table held. *)
Lemma rows_of_upsert_head r t :
  exists rest, rows_of (user_id r) (upsert r t) = r :: rest.
Proof.
  induction t as [|x t [rest IH]]; simpl.
  - rewrite Z.eqb_refl. now exists [].
  - destruct (Z.eqb_spec (user_id x) (user_id r)) as [E|E]; simpl.
    + rewrite E, Z.eqb_refl, do_update_same_key by assumption. eauto.
    + destruct (Z.eqb_spec (user_id x) (user_id r)); [contradiction|].
      exists rest. exact IH.
Qed.

Lemma rows_of_upsert_same r t :
  primary_key t -> rows_of (user_id r) (upsert r t) = [r].
Proof.
  intros H. destruct (rows_of_upsert_head r t) as [rest E].
  pose proof (primary_key_rows_of (user_id r) (upsert_primary_key r H)) as L.
  rewrite E in *. destruct rest; [reflexivity|simpl in L; lia].
Qed.

Lemma rows_of_upsert_other uid r t :
  user_id r <> uid -> rows_of uid (upsert r t) = rows_of uid t.
Proof.
  intros Hne. induction t as [|x t IH]; simpl.
  - destruct (Z.eqb_spec (user_id r) uid); [contradiction|reflexivity].
  - destruct (Z.eqb_spec (user_id x) (user_id r)) as [E|E]; simpl.
    + destruct (Z.eqb_spec (user_id x) uid) as [E'|E']; [congruence|].
      reflexivity.
    + fold (rows_of uid (upsert r t)). fold (rows_of uid t).
      now rewrite IH.
Qed.

(** What a save does depends on its arguments only, as long as the
    table exists: either its values can be bound, and it upserts the row
    that holds them, or the binding raises, whatever the table holds. *)
Lemma save_user_location_cases (uid : Z) (la lo : float) (c a : pystr)
      (now : Z) :
  (in_int64 uid = true /\
   forallb unicode_scalar c = true /\
   forallb unicode_scalar a = true /\
   exists r,
     user_id r = uid /\
     lat r = sqlite_real la /\ lon r = sqlite_real lo /\
     city r = Some c /\ address r = Some a /\ updated_at r = Some now /\
     forall t,
       save_user_location sqlite_real uid la lo c a now (Some t)
       = Ok (Some (upsert r t))) \/
  ((in_int64 uid = false \/
    forallb unicode_scalar c = false \/
    forallb unicode_scalar a = false) /\
   exists e,
     forall t,
       save_user_location sqlite_real uid la lo c a now (Some t) = Raise e).
Proof.
  unfold save_user_location.
  destruct (in_int64 uid) eqn:Hid.
  2:{ right. split; [now left|]. exists OverflowError. intros t.
      now rewrite (bind_integer_out _ Hid). }
  destruct (bind_integer_in _ Hid) as (id & -> & Hv). cbn [bind].
  pose proof (utf8_encode_defined c) as Hc.
  pose proof (utf8_encode_defined a) as Ha.
  unfold bind_text.
  destruct (forallb unicode_scalar c).
  2:{ right. split; [right; now left|]. exists UnicodeEncodeError.
      intros t. now rewrite Hc. }
  destruct Hc as [bc ->]. cbn [bind].
  destruct (forallb unicode_scalar a).
  2:{ right. split; [right; now right|]. exists UnicodeEncodeError.
      intros t. now rewrite Ha. }
  destruct Ha as [ba ->]. cbn [bind].
  left. repeat split; try reflexivity.
  eexists. repeat split; try reflexivity. exact Hv.
Qed.

(** A save that returns has upserted the row of its arguments. *)
Lemma save_user_location_ok (uid : Z) (la lo : float) (c a : pystr)
      (now : Z) db db' :
  save_user_location sqlite_real uid la lo c a now db = Ok db' ->
  exists t r,
    db = Some t /\ db' = Some (upsert r t) /\
    user_id r = uid /\
    lat r = sqlite_real la /\ lon r = sqlite_real lo /\
    city r = Some c /\ address r = Some a /\ updated_at r = Some now.
Proof.
  destruct db as [t|]; [|discriminate].
  destruct (save_user_location_cases uid la lo c a now)
    as [(_ & _ & _ & r & Hk & Hla & Hlo & Hc & Ha & Hn & Hsave)
       |(_ & e & Hsave)];
    rewrite Hsave; [|discriminate].
  intros H. injection H as <-. exists t, r. repeat split; assumption.
Qed.

(** Whatever the calls and whether they return or raise, the table
    still exists afterwards, the key constraint is kept, and the rows of
    an identifier that no call names are untouched. *)
Lemma run_saves_caught_table (calls : list (save_call float)) t :
  exists t',
    run_saves_caught sqlite_real calls (Some t) = Some t' /\
    (primary_key t -> primary_key t') /\
    (forall uid,
        Forall (fun c => call_user_id c <> uid) calls ->
        rows_of uid t' = rows_of uid t).
Proof.
  revert t. induction calls as [|c cs IH]; intros t; simpl.
  - exists t. auto.
  - unfold run_save_caught, run_save.
    destruct (save_user_location_cases (call_user_id c) (call_lat c)
                (call_lon c) (call_city c) (call_address c) (call_now c))
      as [(_ & _ & _ & r & Hk & _ & _ & _ & _ & _ & Hsave)
         |(_ & e & Hsave)];
      rewrite Hsave.
    + destruct (IH (upsert r t)) as (t' & Hrun & Hpk & Hrows).
      exists t'. split; [exact Hrun|]. split.
      * intros H. apply Hpk. now apply upsert_primary_key.
      * intros uid Hall. inversion Hall; subst.
        rewrite Hrows by assumption.
        apply rows_of_upsert_other. now rewrite Hk.
    + destruct (IH t) as (t' & Hrun & Hpk & Hrows).
      exists t'. split; [exact Hrun|]. split; [exact Hpk|].
      intros uid Hall. inversion Hall; subst. now apply Hrows.
Qed.

(** A sequence of calls that all return leaves what the same calls
    leave when their exceptions are caught. *)
Lemma run_saves_caught_returns (calls : list (save_call float)) db db' :
  run_saves sqlite_real calls db = Ok db' ->
  run_saves_caught sqlite_real calls db = db'.
Proof.
  revert db. induction calls as [|c cs IH]; intros db; simpl.
  - intros H. now injection H.
  - unfold run_save_caught.
    destruct (run_save sqlite_real c db) as [d|e]; simpl; [|discriminate].
    apply IH.
Qed.

Lemma get_user_location_rows uid t :
  in_int64 uid = true ->
  get_user_location uid (Some t)
  = match rows_of uid t with
    | [] => Ok None
    | r :: _ =>
        la <- py_float (lat r) ;;
        lo <- py_float (lon r) ;;
        Ok (Some (la, lo, text_or_empty (city r), text_or_empty (address r)))
    end.
Proof.
  intros H. unfold get_user_location, fetchone.
  destruct (bind_integer_in _ H) as (id & -> & Hv). cbn [bind].
  rewrite Hv. now destruct (rows_of uid t).
Qed.

Lemma get_user_location_out_of_range uid t :
  in_int64 uid = false ->
  get_user_location uid (Some t) = Raise OverflowError.
Proof.
  intros H. unfold get_user_location. now rewrite (bind_integer_out _ H).
Qed.

Lemma text_or_empty_default (x : option pystr) :
  text_or_empty x = match x with Some s => s | None => [] end.
Proof. now destruct x as [[|c s]|]. Qed.

(** C3. Starting from any table that meets the key constraint, every
    sequence of [save_user_location] calls, whether they return or
    raise, leaves at most one row per identifier; and after a save for
    an identifier, a second save for it whose texts can be bound returns
    and leaves exactly one row for the identifier, which holds the
    second call's latitude, longitude, city, address and timestamp and
    nothing of the first. *)
Theorem save_user_location_upsert
        (t0 : table float) (calls : list (save_call float)) (uid : Z) :
  primary_key t0 ->
  exists t,
    run_saves_caught sqlite_real calls (Some t0) = Some t /\
    List.length (rows_of uid t) <= 1 /\
    forall la1 lo1 c1 a1 now1 la2 lo2 c2 a2 now2 db1,
      save_user_location sqlite_real uid la1 lo1 c1 a1 now1 (Some t) = Ok db1 ->
      forallb unicode_scalar c2 = true ->
      forallb unicode_scalar a2 = true ->
      exists t2 r,
        save_user_location sqlite_real uid la2 lo2 c2 a2 now2 db1
        = Ok (Some t2) /\
        rows_of uid t2 = [r] /\
        user_id r = uid /\
        lat r = sqlite_real la2 /\ lon r = sqlite_real lo2 /\
        city r = Some c2 /\ address r = Some a2 /\
        updated_at r = Some now2.
Proof.
  intros Hpk.
  destruct (run_saves_caught_table calls t0) as (t & Hrun & Hkeep & _).
  exists t. split; [exact Hrun|]. split.
  - apply primary_key_rows_of. auto.
  - intros la1 lo1 c1 a1 now1 la2 lo2 c2 a2 now2 db1 H1 Hc2 Ha2.
    apply save_user_location_ok in H1
      as (t' & r1 & Ht' & -> & Hk1 & _). injection Ht' as <-.
    destruct (save_user_location_cases uid la2 lo2 c2 a2 now2)
      as [(_ & _ & _ & r2 & Hk & Hla & Hlo & Hc & Ha & Hn & Hsave)
         |([Hbad|[Hbad|Hbad]] & _)].
    + exists (upsert r2 (upsert r1 t)), r2.
      split; [apply Hsave|]. split.
      * rewrite <- Hk. apply rows_of_upsert_same.
        apply upsert_primary_key. auto.
      * repeat split; assumption.
    + rewrite <- Hk1, user_id_range in Hbad. discriminate Hbad.
    + congruence.
    + congruence.
Qed.



(** C10. When a row exists for the identifier, any tuple that
    [get_user_location] returns carries strings for city and address:
    the stored text, or the empty string when the cell is [NULL] (or
    empty); and a tuple is returned whenever latitude and longitude are
    not [NULL]. *)
Theorem get_user_location_strings (t : table float) (uid : Z) (r : row float) :
  hd_error (rows_of uid t) = Some r ->
  let c := match city r with Some s => s | None => [] end in
  let a := match address r with Some s => s | None => [] end in
  (forall res, get_user_location uid (Some t) = Ok res ->
               exists la lo, res = Some (la, lo, c, a)) /\
  (forall la lo, lat r = Some la -> lon r = Some lo ->
                 get_user_location uid (Some t) = Ok (Some (la, lo, c, a))).
Proof.
  intros Hhd c a. subst c a.
  assert (in_int64 uid = true) as Hid.
  { apply (@rows_of_in_int64 uid t r).
    destruct (rows_of uid t) as [|r' rest]; [discriminate|].
    simpl in Hhd. injection Hhd as ->. now left. }
  rewrite get_user_location_rows by assumption.
  destruct (rows_of uid t) as [|r' rest]; [discriminate|].
  simpl in Hhd. injection Hhd as ->.
  rewrite !text_or_empty_default. split.
  - intros res. destruct (lat r), (lon r); simpl; try discriminate.
    intros H. injection H as <-. eauto.
  - intros la lo -> ->. reflexivity.
Qed.

End StoreProperties.

(* ------------------------------------------------------------------ *)
(** ** Reverse geocoder                                                *)
(* ------------------------------------------------------------------ *)

Section GeocoderProperties.

Variable float : Type.
Variable float_bool : float -> bool.

Implicit Types (o : http_outcome float) (data comp : dict (pyval float)).

(** The [or] chain over the four fields of an object is the first
    truthy field, in the order city, town, county, state. *)
Lemma city_chain_first_truthy comp :
  py_or float_bool (method_get (PDict comp) (py "city") PNone)
    (py_or float_bool (method_get (PDict comp) (py "town") PNone)
       (py_or float_bool (method_get (PDict comp) (py "county") PNone)
          (py_or float_bool (method_get (PDict comp) (py "state") PNone)
             (Ok (PStr [])))))
  = Ok (first_truthy float_bool comp CITY_FIELDS).
Proof.
  unfold CITY_FIELDS, py_or, method_get, dict_get, bind. simpl first_truthy.
  repeat match goal with
         | |- context [dict_lookup comp ?k] =>
             destruct (dict_lookup comp k) as [?v|]; simpl truthy
         | |- context [truthy float_bool ?v] =>
             destruct (truthy float_bool v)
         end; reflexivity.
Qed.

(** C1 (as amended). Whatever the coordinates, when the request raises
    an exception (a network error, a timeout), or the response carries an
    error status (4xx or 5xx), or its body is missing or is not JSON,
    [reverse_geocode] returns the pair of empty strings and raises
    nothing. *)
Theorem reverse_geocode_absorbs_failure
        (requests_get : request float -> http_outcome float) (lat lon : float) :
  absorbed_failure (requests_get (geocode_request lat lon)) ->
  reverse_geocode float_bool requests_get lat lon = Ok (PStr [], PStr []).
Proof.
  unfold reverse_geocode, absorbed_failure.
  destruct (requests_get (geocode_request lat lon)) as [e|r].
  - intros He. simpl. now rewrite He.
  - cbn [call_get bind]. unfold raise_for_status.
    intros [[Hlo Hhi]|Hbody].
    + apply Z.leb_le in Hlo. apply Z.ltb_lt in Hhi.
      rewrite Hlo, Hhi. reflexivity.
    + destruct ((400 <=? status_code r) && (status_code r <? 600))%Z;
        [reflexivity|].
      cbn [bind]. unfold response_json. rewrite Hbody. reflexivity.
Qed.

(** C2 (as amended). On a response that passes the status check and
    whose body is a JSON object with [address] absent or an object,
    [reverse_geocode] returns [display_name] as the address (the empty
    string when absent) and, as the city, the first of city, town, county
    and state whose value is present and truthy (the empty string when
    there is none). *)
Theorem reverse_geocode_success
        (requests_get : request float -> http_outcome float) (lat lon : float)
        data comp :
  successful_response (requests_get (geocode_request lat lon)) data comp ->
  reverse_geocode float_bool requests_get lat lon
  = Ok (first_truthy float_bool comp CITY_FIELDS,
        dict_get data (py "display_name") (PStr [])).
Proof.
  intros (r & Hget & Hstatus & Hbody & Haddr).
  unfold reverse_geocode. rewrite Hget. cbn [call_get bind].
  rewrite Hstatus. cbn [bind].
  unfold response_json. rewrite Hbody. cbn [bind method_get].
  rewrite Haddr. cbn [bind].
  rewrite city_chain_first_truthy. reflexivity.
Qed.

End GeocoderProperties.

(* ------------------------------------------------------------------ *)
(** ** The unit tests of the geocoder and of the store                 *)
(* ------------------------------------------------------------------ *)

Example test_reverse_geocode_success :
  reverse_geocode binary64_bool (always (mock_response tehran_data))
    35.7%float 51.4%float
  = Ok (PStr (py "Tehran"), PStr (py "Some Address, Tehran, Iran")).
Proof. vm_compute. reflexivity. Qed.

Example test_reverse_geocode_fallback_to_county :
  reverse_geocode binary64_bool (always (mock_response county_data))
    35.7%float 51.4%float
  = Ok (PStr (py "Tehran County"), PStr (py "Addr, Tehran County, Iran")).
Proof. vm_compute. reflexivity. Qed.

Example test_reverse_geocode_failure :
  reverse_geocode binary64_bool (always (HttpRaises OtherException))
    0%float 0%float
  = Ok (PStr [], PStr []).
Proof. reflexivity. Qed.

(** An exception outside [Exception] is not absorbed. *)
Example reverse_geocode_keyboard_interrupt :
  reverse_geocode binary64_bool (always (HttpRaises KeyboardInterrupt))
    0%float 0%float
  = Raise KeyboardInterrupt.
Proof. reflexivity. Qed.

Example test_save_and_get_user_location :
  (db <- save_user_location binary64_real 123 1.1%float 2.2%float
           (py "CityX") (py "AddrY") 1700000000 (init_db None) ;;
   get_user_location 123 db)
  = Ok (Some (1.1%float, 2.2%float, py "CityX", py "AddrY")).
Proof. vm_compute. reflexivity. Qed.

Example test_get_user_location_absent :
  get_user_location 999 (init_db (None : database PrimFloat.float)) = Ok None.
Proof. reflexivity. Qed.

(** Without the table both operations fail, and a [NULL] latitude makes
    the read fail. *)
Example get_user_location_no_table :
  get_user_location 999 (None : database PrimFloat.float)
  = Raise OperationalError.
Proof. reflexivity. Qed.

Example save_user_location_no_table :
  run_save binary64_real overflow_call None = Raise OperationalError.
Proof. reflexivity. Qed.

Example get_user_location_null_lat :
  get_user_location 42 (Some [null_lat_row]) = Raise TypeError.
Proof. reflexivity. Qed.

(** What cannot be bound: an identifier outside 64 bits, in a save and
    in a read, and a text with a lone surrogate. *)
Example save_user_location_overflow :
  run_save binary64_real overflow_call (init_db None) = Raise OverflowError.
Proof. vm_compute. reflexivity. Qed.

Example get_user_location_overflow :
  get_user_location 9223372036854775808
    (init_db (None : database PrimFloat.float))
  = Raise OverflowError.
Proof. vm_compute. reflexivity. Qed.

Example save_user_location_surrogate :
  run_save binary64_real surrogate_call (init_db None)
  = Raise UnicodeEncodeError.
Proof. vm_compute. reflexivity. Qed.

(** The two ends of the 64-bit range are identifiers like any other. *)
Example get_user_location_int64_bounds :
  get_user_location INT64_MIN (init_db (None : database PrimFloat.float))
  = Ok None /\
  get_user_location INT64_MAX (init_db (None : database PrimFloat.float))
  = Ok None.
Proof. split; vm_compute; reflexivity. Qed.

(** What a [REAL] column holds for a binary64 float: [NULL] for NaN,
    and otherwise a float that compares equal to the given one. *)
Lemma binary64_real_equal (x : PrimFloat.float) :
  if PrimFloat.is_nan x then binary64_real x = None
  else exists y, binary64_real x = Some y /\ PrimFloat.eqb x y = true.
Proof.
  unfold binary64_real, PrimFloat.is_nan.
  destruct (PrimFloat.eqb x x) eqn:E; simpl; [|reflexivity].
  destruct (PrimFloat.eqb x 0) eqn:E0; eauto.
Qed.

(** A negative zero is read back as zero, an infinity as it is. *)
Example save_and_get_negative_zero :
  (db <- save_user_location binary64_real 123 (-0)%float infinity
           (py "CityX") [] 1700000000 (init_db None) ;;
   get_user_location 123 db)
  = Ok (Some (0%float, infinity, py "CityX", [])).
Proof. vm_compute. reflexivity. Qed.

(* ------------------------------------------------------------------ *)
(** ** Instances and counterexamples                                   *)
(* ------------------------------------------------------------------ *)

(** C1, as stated, fails: a status outside 2xx that is not an error
    status passes [raise_for_status], and a well-formed body is then
    read as on success. *)
Lemma reverse_geocode_non_2xx_counterexample :
  interaction_fails status_300_outcome /\
  reverse_geocode binary64_bool (always status_300_outcome)
    35.75%float 51.5%float
  = Ok (PStr [], PStr (py "Tehran, Iran")) /\
  reverse_geocode binary64_bool (always status_300_outcome)
    35.75%float 51.5%float
  <> Ok (PStr [], PStr []).
Proof.
  split; [left; vm_compute; intros [_ C]; discriminate C|].
  split; [vm_compute; reflexivity|].
  intros H. vm_compute in H. discriminate H.
Qed.

Lemma reverse_geocode_absorbs_failure_witness :
  absorbed_failure status_503_outcome /\
  reverse_geocode binary64_bool (always status_503_outcome)
    35.75%float 51.5%float
  = Ok (PStr [], PStr []).
Proof.
  assert (absorbed_failure status_503_outcome) as H.
  { left. vm_compute. split; [intros C; discriminate C|reflexivity]. }
  split; [exact H|].
  exact (@reverse_geocode_absorbs_failure PrimFloat.float binary64_bool
           (always status_503_outcome) 35.75%float 51.5%float H).
Defined.

(** C2, as stated, fails: a [city] that is present but empty is passed
    over for the [town]. *)
Lemma reverse_geocode_present_empty_counterexample :
  successful_response empty_city_outcome empty_city_data empty_city_comp /\
  first_present empty_city_comp CITY_FIELDS = PStr [] /\
  reverse_geocode binary64_bool (always empty_city_outcome)
    35.75%float 51.5%float
  = Ok (PStr (py "Karaj"), PStr (py "Karaj, Alborz, Iran")) /\
  reverse_geocode binary64_bool (always empty_city_outcome)
    35.75%float 51.5%float
  <> Ok (first_present empty_city_comp CITY_FIELDS,
         dict_get empty_city_data (py "display_name") (PStr [])).
Proof.
  split.
  { eexists. split; [reflexivity|].
    split; [reflexivity|]. split; [reflexivity|].
    vm_compute. reflexivity. }
  split; [vm_compute; reflexivity|].
  split; [vm_compute; reflexivity|].
  intros H. vm_compute in H. discriminate H.
Qed.

Lemma reverse_geocode_success_witness :
  successful_response (mock_response county_data) county_data county_comp /\
  reverse_geocode binary64_bool (always (mock_response county_data))
    35.7%float 51.4%float
  = Ok (first_truthy binary64_bool county_comp CITY_FIELDS,
        dict_get county_data (py "display_name") (PStr [])).
Proof.
  assert (successful_response (mock_response county_data)
            county_data county_comp) as H.
  { eexists. split; [reflexivity|].
    split; [reflexivity|]. split; [reflexivity|].
    vm_compute. reflexivity. }
  split; [exact H|].
  exact (@reverse_geocode_success PrimFloat.float binary64_bool
           (always (mock_response county_data)) 35.7%float 51.4%float
           county_data county_comp H).
Defined.

Lemma save_user_location_upsert_witness :
  primary_key (@nil (row PrimFloat.float)) /\
  exists t,
    run_saves_caught binary64_real mixed_calls (Some []) = Some t /\
    List.length (rows_of 123 t) <= 1 /\
    forall la1 lo1 c1 a1 now1 la2 lo2 c2 a2 now2 db1,
      save_user_location binary64_real 123 la1 lo1 c1 a1 now1 (Some t)
      = Ok db1 ->
      forallb unicode_scalar c2 = true ->
      forallb unicode_scalar a2 = true ->
      exists t2 r,
        save_user_location binary64_real 123 la2 lo2 c2 a2 now2 db1
        = Ok (Some t2) /\
        rows_of 123 t2 = [r] /\
        user_id r = 123%Z /\
        lat r = binary64_real la2 /\ lon r = binary64_real lo2 /\
        city r = Some c2 /\ address r = Some a2 /\
        updated_at r = Some now2.
Proof.
  assert (primary_key (@nil (row PrimFloat.float))) as H by constructor.
  split; [exact H|].
  exact (@save_user_location_upsert PrimFloat.float binary64_real
           [] mixed_calls 123 H).
Defined.




Lemma get_user_location_strings_witness :
  hd_error (rows_of 42 [null_text_row]) = Some null_text_row /\
  get_user_location 42 (Some [null_text_row])
  = Ok (Some (35.75%float, 51.5%float, [], [])).
Proof.
  assert (hd_error (rows_of 42 [null_text_row]) = Some null_text_row) as H
      by reflexivity.
  split; [exact H|].
  exact (proj2 (@get_user_location_strings PrimFloat.float
                  [null_text_row] 42 null_text_row H)
           35.75%float 51.5%float eq_refl eq_refl).
Defined.

(* ------------------------------------------------------------------ *)
(** ** More on the location store                                      *)
(* ------------------------------------------------------------------ *)

Section StoreLaws.

Variable float : Type.
Variable sqlite_real : float -> option float.

Implicit Types (t : table float) (r x : row float) (db : database float).

Lemma rows_of_upsert (r : row float) (t : table float) (uid : Z) :
  rows_of uid (upsert r t)
  = if (user_id r =? uid)%Z then r :: tl (rows_of uid t) else rows_of uid t.
Proof.
  destruct (Z.eqb_spec (user_id r) uid) as [E|E].
  - subst uid. induction t as [|x t IH]; simpl.
    + now rewrite Z.eqb_refl.
    + destruct (Z.eqb_spec (user_id x) (user_id r)) as [E|E]; simpl.
      * rewrite E, Z.eqb_refl, do_update_same_key by assumption. reflexivity.
      * destruct (Z.eqb_spec (user_id x) (user_id r)); [contradiction|].
        exact IH.
  - now apply rows_of_upsert_other.
Qed.

Lemma upsert_upsert (r1 r2 : row float) (t : table float) :
  user_id r1 = user_id r2 -> upsert r2 (upsert r1 t) = upsert r2 t.
Proof.
  intros E. induction t as [|x t IH]; simpl.
  - now rewrite E, Z.eqb_refl, do_update_same_key.
  - rewrite E.
    destruct (Z.eqb_spec (user_id x) (user_id r2)) as [Ex|Ex]; simpl.
    + now rewrite Ex, Z.eqb_refl.
    + destruct (Z.eqb_spec (user_id x) (user_id r2)); [contradiction|].
      now rewrite IH.
Qed.

Lemma upsert_length (r : row float) (t : table float) :
  List.length (upsert r t)
  = if has_row (user_id r) t then List.length t else S (List.length t).
Proof.
  unfold has_row. induction t as [|x t IH]; simpl; [reflexivity|].
  destruct (Z.eqb_spec (user_id x) (user_id r)); simpl; [reflexivity|].
  rewrite IH. now destruct (existsb _ t).
Qed.

(** A read sees the first row selected for the identifier, when the
    identifier is a 64-bit value, and raises otherwise. *)
Lemma get_user_location_hd (uid : Z) (t t' : table float) :
  hd_error (rows_of uid t') = hd_error (rows_of uid t) ->
  get_user_location uid (Some t') = get_user_location uid (Some t).
Proof.
  intros H. destruct (in_int64 uid) eqn:Hid.
  - rewrite !get_user_location_rows by assumption.
    destruct (rows_of uid t'), (rows_of uid t); simpl in H;
      try discriminate; [reflexivity|].
    now injection H as ->.
  - now rewrite !get_user_location_out_of_range.
Qed.

(** X1. The last write wins on the whole database: once a save for an
    identifier has returned, a second save for it leaves the database
    exactly as it would have without the first, and raises exactly when
    it would have without the first. *)
Theorem save_user_location_overwrites
        (db db1 : database float) (uid : Z)
        (la1 lo1 : float) (c1 a1 : pystr) (now1 : Z)
        (la2 lo2 : float) (c2 a2 : pystr) (now2 : Z) :
  save_user_location sqlite_real uid la1 lo1 c1 a1 now1 db = Ok db1 ->
  save_user_location sqlite_real uid la2 lo2 c2 a2 now2 db1
  = save_user_location sqlite_real uid la2 lo2 c2 a2 now2 db.
Proof.
  intros H1.
  apply save_user_location_ok in H1 as (t & r1 & -> & -> & Hk1 & _).
  destruct (save_user_location_cases sqlite_real uid la2 lo2 c2 a2 now2)
    as [(_ & _ & _ & r2 & Hk2 & _ & _ & _ & _ & _ & Hsave)
       |(_ & e & Hsave)];
    rewrite !Hsave; [|reflexivity].
  now rewrite upsert_upsert by congruence.
Qed.

(** X2. A save that returns has added exactly one row when the
    identifier had none, and has kept the number of rows when it had
    one. *)
Theorem save_user_location_row_count
        (t t' : table float) (uid : Z) (la lo : float) (c a : pystr)
        (now : Z) :
  save_user_location sqlite_real uid la lo c a now (Some t) = Ok (Some t') ->
  List.length t'
  = if has_row uid t then List.length t else S (List.length t).
Proof.
  intros H.
  apply save_user_location_ok in H as (t0 & r & Ht & Ht' & Hk & _).
  injection Ht as <-. injection Ht' as ->.
  rewrite upsert_length. now rewrite Hk.
Qed.

(** X3. A save for one identifier does not change what a read returns
    for any other identifier. *)
Theorem save_user_location_frame
        (db db' : database float) (uid uid' : Z)
        (la lo : float) (c a : pystr) (now : Z) :
  uid <> uid' ->
  save_user_location sqlite_real uid la lo c a now db = Ok db' ->
  get_user_location uid' db' = get_user_location uid' db.
Proof.
  intros Hne H.
  apply save_user_location_ok in H as (t & r & -> & -> & Hk & _).
  apply get_user_location_hd.
  now rewrite rows_of_upsert_other by congruence.
Qed.

(** X4. Saves for two different identifiers commute: when the two
    saves return in one order they return in the other order too, and
    every read then returns the same result. *)
Theorem save_user_location_commute
        (db d1 d2 : database float) (uid1 uid2 : Z)
        (la1 lo1 : float) (c1 a1 : pystr) (now1 : Z)
        (la2 lo2 : float) (c2 a2 : pystr) (now2 : Z) :
  uid1 <> uid2 ->
  save_user_location sqlite_real uid1 la1 lo1 c1 a1 now1 db = Ok d1 ->
  save_user_location sqlite_real uid2 la2 lo2 c2 a2 now2 d1 = Ok d2 ->
  exists d1' d2',
    save_user_location sqlite_real uid2 la2 lo2 c2 a2 now2 db = Ok d1' /\
    save_user_location sqlite_real uid1 la1 lo1 c1 a1 now1 d1' = Ok d2' /\
    forall uid, get_user_location uid d2' = get_user_location uid d2.
Proof.
  intros Hne H1 H2. destruct db as [t|]; [|discriminate].
  destruct (save_user_location_cases sqlite_real uid1 la1 lo1 c1 a1 now1)
    as [(_ & _ & _ & r1 & Hk1 & _ & _ & _ & _ & _ & Hsave1)
       |(_ & e & Hsave1)];
    rewrite Hsave1 in H1; [|discriminate].
  injection H1 as <-.
  destruct (save_user_location_cases sqlite_real uid2 la2 lo2 c2 a2 now2)
    as [(_ & _ & _ & r2 & Hk2 & _ & _ & _ & _ & _ & Hsave2)
       |(_ & e & Hsave2)];
    rewrite Hsave2 in H2; [|discriminate].
  injection H2 as <-.
  exists (Some (upsert r2 t)), (Some (upsert r1 (upsert r2 t))).
  split; [apply Hsave2|]. split; [apply Hsave1|].
  intros uid. apply get_user_location_hd.
  rewrite !rows_of_upsert, Hk1, Hk2.
  destruct (Z.eqb_spec uid1 uid), (Z.eqb_spec uid2 uid);
    try reflexivity.
  congruence.
Qed.

(** A call returns exactly when its values can be bound. *)
Lemma run_save_caught_binds (c : save_call float) (t : table float) :
  if call_binds c
  then exists r,
         user_id r = call_user_id c /\
         lat r = sqlite_real (call_lat c) /\
         lon r = sqlite_real (call_lon c) /\
         city r = Some (call_city c) /\
         address r = Some (call_address c) /\
         run_save_caught sqlite_real c (Some t) = Some (upsert r t)
  else run_save_caught sqlite_real c (Some t) = Some t.
Proof.
  unfold call_binds, run_save_caught, run_save.
  destruct (save_user_location_cases sqlite_real (call_user_id c)
              (call_lat c) (call_lon c) (call_city c) (call_address c)
              (call_now c))
    as [(-> & -> & -> & r & Hk & Hla & Hlo & Hc & Ha & _ & Hsave)
       |(Hbad & e & Hsave)]; rewrite Hsave.
  - exists r. repeat split; assumption.
  - destruct Hbad as [->|[->| ->]]; [reflexivity| |].
    + now destruct (in_int64 _).
    + now destruct (in_int64 _), (forallb _ (call_city c)).
Qed.

Lemma run_saves_caught_last_call (calls : list (save_call float))
      (t : table float) (uid : Z) :
  exists t',
    run_saves_caught sqlite_real calls (Some t) = Some t' /\
    match last_call uid (filter (@call_binds float) calls) with
    | Some c =>
        exists r,
          hd_error (rows_of uid t') = Some r /\
          lat r = sqlite_real (call_lat c) /\
          lon r = sqlite_real (call_lon c) /\
          city r = Some (call_city c) /\
          address r = Some (call_address c)
    | None => hd_error (rows_of uid t') = hd_error (rows_of uid t)
    end.
Proof.
  revert t. induction calls as [|c cs IH]; intros t.
  - exists t. split; reflexivity.
  - cbn [run_saves_caught filter].
    pose proof (run_save_caught_binds c t) as Hc.
    destruct (call_binds c).
    + destruct Hc as (r & Hk & Hla & Hlo & Hci & Had & ->).
      destruct (IH (upsert r t)) as (t' & Hrun & Hlast).
      exists t'. split; [exact Hrun|]. cbn [last_call].
      destruct (last_call uid (filter (@call_binds float) cs));
        [exact Hlast|].
      rewrite Hlast, rows_of_upsert, Hk.
      destruct (Z.eqb_spec (call_user_id c) uid) as [E|E]; [|reflexivity].
      exists r. repeat split; assumption.
    + rewrite Hc. apply IH.
Qed.

(** X5. The store as a whole: on a fresh database, after any sequence
    of saves, whether they return or raise, a read of a 64-bit
    identifier is decided by the last save that named it among those
    whose values could be bound.  It returns [None] when there is none;
    otherwise it returns the coordinates as stored together with the
    city and the address of that save, and raises [TypeError] when a
    coordinate was stored as [NULL]. *)
Theorem get_user_location_last_save
        (calls : list (save_call float)) (uid : Z) :
  in_int64 uid = true ->
  get_user_location uid (run_saves_caught sqlite_real calls (init_db None))
  = match last_call uid (filter (@call_binds float) calls) with
    | None => Ok None
    | Some c =>
        la <- py_float (sqlite_real (call_lat c)) ;;
        lo <- py_float (sqlite_real (call_lon c)) ;;
        Ok (Some (la, lo, call_city c, call_address c))
    end.
Proof.
  intros Hid. unfold init_db.
  destruct (run_saves_caught_last_call calls [] uid) as (t' & Hrun & Hlast).
  unfold table in Hrun. rewrite Hrun.
  rewrite get_user_location_rows by assumption.
  destruct (last_call uid (filter (@call_binds float) calls)) as [c|].
  - destruct Hlast as (r & Hhd & Hla & Hlo & Hc & Ha).
    destruct (rows_of uid t') as [|r' rest]; [discriminate|].
    simpl in Hhd. injection Hhd as ->.
    now rewrite Hla, Hlo, Hc, Ha, !text_or_empty_default.
  - now destruct (rows_of uid t').
Qed.

(** X6. A row whose latitude or longitude is [NULL] makes the read
    raise [TypeError]: only city and address are defaulted. *)
Theorem get_user_location_null_coordinate
        (t : table float) (uid : Z) (r : row float) :
  hd_error (rows_of uid t) = Some r ->
  lat r = None \/ lon r = None ->
  get_user_location uid (Some t) = Raise TypeError.
Proof.
  intros Hhd Hnull.
  assert (in_int64 uid = true) as Hid.
  { apply (@rows_of_in_int64 float uid t r).
    destruct (rows_of uid t) as [|r' rest]; [discriminate|].
    simpl in Hhd. injection Hhd as ->. now left. }
  rewrite get_user_location_rows by assumption.
  destruct (rows_of uid t) as [|r' rest]; [discriminate|].
  simpl in Hhd. injection Hhd as ->.
  destruct Hnull as [-> | ->]; [reflexivity|].
  now destruct (lat r).
Qed.

End StoreLaws.

(* ------------------------------------------------------------------ *)
(** ** More on the reverse geocoder                                    *)
(* ------------------------------------------------------------------ *)

Section GeocoderLaws.

Variable float : Type.
Variable float_bool : float -> bool.

Implicit Types (data comp : dict (pyval float)).

Lemma first_truthy_empty_or_truthy comp (keys : list pystr) :
  first_truthy float_bool comp keys = PStr [] \/
  truthy float_bool (first_truthy float_bool comp keys) = true.
Proof.
  induction keys as [|k ks IH]; simpl; [now left|].
  destruct (dict_lookup comp k) as [v|]; [|exact IH].
  destruct (truthy float_bool v) eqn:E; [now right|exact IH].
Qed.

(** The three behaviours of [reverse_geocode]. *)
Lemma reverse_geocode_outcomes
        (requests_get : request float -> http_outcome float) (lat lon : float) :
  (exists e,
      requests_get (geocode_request lat lon) = HttpRaises e /\
      is_Exception e = false /\
      reverse_geocode float_bool requests_get lat lon = Raise e) \/
  reverse_geocode float_bool requests_get lat lon = Ok (PStr [], PStr []) \/
  (exists data comp,
      successful_response (requests_get (geocode_request lat lon)) data comp /\
      reverse_geocode float_bool requests_get lat lon
      = Ok (first_truthy float_bool comp CITY_FIELDS,
            dict_get data (py "display_name") (PStr []))).
Proof.
  destruct (requests_get (geocode_request lat lon)) as [e|r] eqn:Hget.
  - destruct (is_Exception e) eqn:He.
    + right. left. unfold reverse_geocode. rewrite Hget. simpl. now rewrite He.
    + left. exists e. repeat split; [exact He|].
      unfold reverse_geocode. rewrite Hget. simpl. now rewrite He.
  - right.
    destruct (raise_for_status r) as [[]|e] eqn:Hstatus.
    + destruct (json_body r) as [[| | | | | |data]|] eqn:Hbody;
        try (left; unfold reverse_geocode; rewrite Hget; cbn [call_get bind];
             rewrite Hstatus; cbn [bind]; unfold response_json;
             rewrite Hbody; reflexivity).
      destruct (dict_get data (py "address") (PDict []))
        as [| | | | | |comp] eqn:Haddr;
        try (left; unfold reverse_geocode; rewrite Hget; cbn [call_get bind];
             rewrite Hstatus; cbn [bind]; unfold response_json;
             rewrite Hbody; cbn [bind method_get]; rewrite Haddr;
             reflexivity).
      right. exists data, comp.
      assert (successful_response (HttpResponse r) data comp) as Hok
          by (exists r; auto).
      split; [exact Hok|].
      unfold reverse_geocode. rewrite Hget. cbn [call_get bind].
      rewrite Hstatus. cbn [bind]. unfold response_json.
      rewrite Hbody. cbn [bind method_get]. rewrite Haddr. cbn [bind].
      now rewrite city_chain_first_truthy.
    + left. unfold reverse_geocode. rewrite Hget. cbn [call_get bind].
      rewrite Hstatus. unfold raise_for_status in Hstatus.
      destruct ((400 <=? status_code r) && (status_code r <? 600))%Z;
        [|discriminate].
      injection Hstatus as <-. reflexivity.
Qed.

(** X7. [reverse_geocode] has three behaviours and no other: it lets
    through an exception that the request raised and that is not an
    [Exception]; or it returns the pair of empty strings; or the
    response is a successful one and it returns the first truthy city
    field with the [display_name]. *)
Theorem reverse_geocode_cases
        (requests_get : request float -> http_outcome float) (lat lon : float) :
  (exists e,
      requests_get (geocode_request lat lon) = HttpRaises e /\
      is_Exception e = false /\
      reverse_geocode float_bool requests_get lat lon = Raise e) \/
  reverse_geocode float_bool requests_get lat lon = Ok (PStr [], PStr []) \/
  (exists data comp,
      successful_response (requests_get (geocode_request lat lon)) data comp /\
      reverse_geocode float_bool requests_get lat lon
      = Ok (first_truthy float_bool comp CITY_FIELDS,
            dict_get data (py "display_name") (PStr []))).
Proof. apply reverse_geocode_outcomes. Qed.

(** X8. No [Exception] ever escapes [reverse_geocode]: what it raises,
    the request raised, and it is outside [Exception]. *)
Theorem reverse_geocode_raises_only_base_exceptions
        (requests_get : request float -> http_outcome float) (lat lon : float)
        (e : exn) :
  reverse_geocode float_bool requests_get lat lon = Raise e ->
  is_Exception e = false /\
  requests_get (geocode_request lat lon) = HttpRaises e.
Proof.
  intros H.
  destruct (reverse_geocode_outcomes requests_get lat lon)
    as [(e' & Hget & He & Hr)|[Hr|(data & comp & _ & Hr)]];
    rewrite Hr in H; try discriminate.
  injection H as <-. auto.
Qed.

(** X9. The city that [reverse_geocode] returns is the empty string or
    a truthy value: never [None], zero or an empty container. *)
Theorem reverse_geocode_city_empty_or_truthy
        (requests_get : request float -> http_outcome float) (lat lon : float)
        (c a : pyval float) :
  reverse_geocode float_bool requests_get lat lon = Ok (c, a) ->
  c = PStr [] \/ truthy float_bool c = true.
Proof.
  intros H.
  destruct (reverse_geocode_outcomes requests_get lat lon)
    as [(e' & _ & _ & Hr)|[Hr|(data & comp & _ & Hr)]];
    rewrite Hr in H; try discriminate; injection H as <- <-.
  - now left.
  - exact (first_truthy_empty_or_truthy comp CITY_FIELDS).
Qed.

(** X10. A body that is JSON but not an object, or whose [address]
    member is present and not an object, is absorbed like a failure:
    the pair of empty strings, even when [display_name] is there. *)
Theorem reverse_geocode_ill_shaped
        (requests_get : request float -> http_outcome float) (lat lon : float)
        (r : response float) :
  requests_get (geocode_request lat lon) = HttpResponse r ->
  (exists v, json_body r = Some v /\ forall d, v <> PDict d) \/
  (exists data v,
      json_body r = Some (PDict data) /\
      dict_lookup data (py "address") = Some v /\
      forall d, v <> PDict d) ->
  reverse_geocode float_bool requests_get lat lon = Ok (PStr [], PStr []).
Proof.
  intros Hget Hshape.
  unfold reverse_geocode. rewrite Hget. cbn [call_get bind].
  unfold raise_for_status.
  destruct ((400 <=? status_code r) && (status_code r <? 600))%Z;
    [reflexivity|]. cbn [bind]. unfold response_json.
  destruct Hshape as [(v & Hbody & Hv)|(data & v & Hbody & Haddr & Hv)];
    rewrite Hbody; cbn [bind].
  - destruct v as [| | | | | |dd]; try reflexivity. exfalso. exact (Hv dd eq_refl).
  - assert (dict_get data (py "address") (PDict []) = v) as Hd
        by (unfold dict_get; now rewrite Haddr).
    cbn [method_get bind]. rewrite !Hd.
    destruct v as [| | | | | |dd]; try reflexivity.
    exfalso. exact (Hv dd eq_refl).
Qed.

End GeocoderLaws.

(* ------------------------------------------------------------------ *)
(** ** More on [quote_plus] and the links                              *)
(* ------------------------------------------------------------------ *)

(** X12. [quote_plus] raises on exactly the texts that hold a code
    point outside the Unicode scalar values (a lone surrogate), and what
    it raises is [UnicodeEncodeError]; on every other text it returns. *)
Theorem quote_plus_defined (s : pystr) :
  if forallb unicode_scalar s
  then exists e, quote_plus s = Ok e
  else quote_plus s = Raise UnicodeEncodeError.
Proof.
  pose proof (utf8_encode_defined s) as H.
  unfold quote_plus, quote.
  destruct s as [|c s]; [simpl; eauto|].
  destruct (forallb unicode_scalar (c :: s)).
  - destruct H as [bs ->].
    destruct (negb (contains_char SPACE (c :: s))); simpl; eauto.
  - rewrite H. now destruct (negb (contains_char SPACE (c :: s))).
Qed.

Lemma forallb_concat (A : Type) (f : A -> bool) (l : list (list A)) :
  forallb f (List.concat l) = forallb (forallb f) l.
Proof.
  induction l as [|x l IH]; simpl; [reflexivity|].
  now rewrite forallb_app, IH.
Qed.

Lemma quoter_url_safe (b : byte) :
  forallb url_safe_char (quoter [] b) = true.
Proof. destruct b; reflexivity. Qed.

Lemma quoter_plus_url_safe (b : byte) :
  forallb url_safe_char
    (replace_char SPACE PLUS (quoter [byte_of_N SPACE] b)) = true.
Proof. destruct b; reflexivity. Qed.

Lemma quote_from_bytes_url_safe (bs : list byte) :
  forallb url_safe_char (quote_from_bytes bs []) = true /\
  forallb url_safe_char
    (replace_char SPACE PLUS (quote_from_bytes bs [byte_of_N SPACE])) = true.
Proof.
  unfold quote_from_bytes.
  induction bs as [|b bs [IH1 IH2]]; [split; reflexivity|].
  cbn [map List.concat]. rewrite replace_char_app, !forallb_app.
  now rewrite quoter_url_safe, quoter_plus_url_safe, IH1, IH2.
Qed.

Lemma url_safe_is_ascii (c : N) : url_safe_char c = true -> is_ascii c = true.
Proof.
  unfold url_safe_char, is_ascii. intros H.
  apply orb_true_iff in H as [H|H]; [apply orb_true_iff in H as [H|H]|].
  - apply existsb_exists in H as (x & Hin & Hx).
    apply N.eqb_eq in Hx. subst x.
    assert (forallb is_ascii (map chr_of_byte ALWAYS_SAFE) = true) as Hall
        by reflexivity.
    rewrite forallb_forall in Hall. exact (Hall _ Hin).
  - apply N.eqb_eq in H. now subst c.
  - apply N.eqb_eq in H. now subst c.
Qed.

Lemma quote_plus_alphabet (s e : pystr) :
  quote_plus s = Ok e -> forallb url_safe_char e = true.
Proof.
  unfold quote_plus, quote.
  destruct s as [|c s].
  - simpl. intros H. injection H as <-. reflexivity.
  - destruct (utf8_encode (c :: s)) as [bs|];
      destruct (negb (contains_char SPACE (c :: s))); cbn [bind];
      try discriminate; intros H; injection H as <-;
      apply quote_from_bytes_url_safe.
Qed.

(** X13. Whatever [quote_plus] returns is made of unreserved
    characters, percent signs and plus signs only: no space, no
    non-ASCII character and no reserved character is left in it. *)
Theorem quote_plus_url_safe (s e : pystr) :
  quote_plus s = Ok e ->
  forallb url_safe_char e = true /\
  forallb is_ascii e = true /\
  contains_char SPACE e = false.
Proof.
  intros H. pose proof (quote_plus_alphabet _ H) as Ha.
  split; [exact Ha|]. rewrite forallb_forall in Ha. split.
  - apply forallb_forall. intros c Hc. apply url_safe_is_ascii. auto.
  - unfold contains_char.
    destruct (existsb (N.eqb SPACE) e) eqn:E; [|reflexivity].
    apply existsb_exists in E as (c & Hc & Heq).
    apply N.eqb_eq in Heq. subst c.
    apply Ha in Hc. discriminate Hc.
Qed.

Lemma category_query_encodable (key : pystr) :
  exists e, quote_plus (dict_get CATEGORY_QUERIES key []) = Ok e.
Proof.
  unfold dict_get.
  destruct (dict_lookup CATEGORY_QUERIES key) as [q|] eqn:E.
  - each_category E; eexists; vm_compute; reflexivity.
  - eexists. vm_compute. reflexivity.
Qed.

(** X14. Every link, for every key and hint, is the base address and
    [/search?query=] followed by unreserved characters, percent signs and
    plus signs: the whole link is ASCII, whatever the script of the
    query. *)
Theorem build_snappfood_link_ascii (key : pystr) (city : option pystr) :
  exists e,
    build_snappfood_link key city
    = Ok (BASE_WEB ++ py "/search?query=" ++ e) /\
    forallb url_safe_char e = true /\
    forallb is_ascii (BASE_WEB ++ py "/search?query=" ++ e) = true.
Proof.
  destruct (category_query_encodable key) as [e He].
  exists e. unfold build_snappfood_link. rewrite He. cbn [bind].
  split; [reflexivity|].
  pose proof (quote_plus_alphabet _ He) as Hsafe.
  split; [exact Hsafe|].
  rewrite !forallb_app. apply andb_true_iff. split; [reflexivity|].
  apply andb_true_iff. split; [reflexivity|].
  rewrite forallb_forall in *. intros c Hc.
  apply url_safe_is_ascii. auto.
Qed.

(** X15. Two keys get the same link only when they stand for the same
    query text: the link determines the query. *)
Theorem build_snappfood_link_injective
        (key1 key2 : pystr) (city1 city2 : option pystr) :
  build_snappfood_link key1 city1 = build_snappfood_link key2 city2 ->
  dict_get CATEGORY_QUERIES key1 [] = dict_get CATEGORY_QUERIES key2 [].
Proof.
  unfold build_snappfood_link.
  destruct (category_query_encodable key1) as [e1 He1].
  destruct (category_query_encodable key2) as [e2 He2].
  rewrite He1, He2. cbn [bind]. intros H. injection H as H.
  subst e2.
  apply quote_plus_round_trip in He1, He2. congruence.
Qed.

(** X11. Decoding what [quote_plus] returns gives the text back, for
    every text it accepts; so two texts with the same encoding are the
    same text. *)
Theorem quote_plus_decodes_back (s1 s2 e : pystr) :
  quote_plus s1 = Ok e ->
  unquote_plus e = Some s1 /\ (quote_plus s2 = Ok e -> s1 = s2).
Proof.
  intros H1. pose proof (quote_plus_round_trip _ H1) as Hd.
  split; [exact Hd|].
  intros H2. apply quote_plus_round_trip in H2. congruence.
Qed.

Lemma quote_plus_decodes_back_witness :
  quote_plus (py "کباب ترکی") = Ok (py "%DA%A9%D8%A8%D8%A7%D8%A8+%D8%AA%D8%B1%DA%A9%DB%8C") /\
  unquote_plus (py "%DA%A9%D8%A8%D8%A7%D8%A8+%D8%AA%D8%B1%DA%A9%DB%8C")
  = Some (py "کباب ترکی").
Proof.
  assert (quote_plus (py "کباب ترکی")
          = Ok (py "%DA%A9%D8%A8%D8%A7%D8%A8+%D8%AA%D8%B1%DA%A9%DB%8C")) as H
      by (vm_compute; reflexivity).
  split; [exact H|].
  exact (proj1 (@quote_plus_decodes_back _ (py "x") _ H)).
Defined.

Lemma quote_plus_url_safe_witness :
  quote_plus (py "a b+c/~") = Ok (py "a+b%2Bc%2F~") /\
  forallb url_safe_char (py "a+b%2Bc%2F~") = true.
Proof.
  assert (quote_plus (py "a b+c/~") = Ok (py "a+b%2Bc%2F~")) as H
      by (vm_compute; reflexivity).
  split; [exact H|].
  exact (proj1 (@quote_plus_url_safe _ _ H)).
Defined.

Lemma build_snappfood_link_injective_witness :
  build_snappfood_link (py "unknown") None
  = build_snappfood_link (py "other") (Some (py "Tehran")) /\
  dict_get CATEGORY_QUERIES (py "unknown") []
  = dict_get CATEGORY_QUERIES (py "other") [].
Proof.
  assert (build_snappfood_link (py "unknown") None
          = build_snappfood_link (py "other") (Some (py "Tehran"))) as H
      by (vm_compute; reflexivity).
  split; [exact H|].
  exact (@build_snappfood_link_injective _ _ _ _ H).
Defined.

(* ------------------------------------------------------------------ *)
(** ** Entry point                                                     *)
(* ------------------------------------------------------------------ *)

Section EntryPointLaws.

Variable float : Type.

(** X16. [main] starts polling only when the SDK is available and
    [TELEGRAM_TOKEN] is set to something else than the placeholder; the
    [users] table then exists, with the rows it had. *)
Theorem main_polls_only_when_configured
        (TELEGRAM_AVAILABLE : bool) (environ : dict pystr)
        (mode : option pystr) (db db' : database float) :
  main TELEGRAM_AVAILABLE environ mode db = RunPolling db' ->
  TELEGRAM_AVAILABLE = true /\
  TELEGRAM_TOKEN environ <> TOKEN_PLACEHOLDER /\
  db' = init_db db /\
  (exists t, db' = Some t) /\
  (forall t, db = Some t -> db' = Some t).
Proof.
  unfold main, run_bot.
  destruct (pystr_eqb _ (py "test")); [discriminate|].
  destruct (pystr_eqb _ (py "demo")); [discriminate|].
  destruct TELEGRAM_AVAILABLE; simpl; [|discriminate].
  destruct (pystr_eqb (TELEGRAM_TOKEN environ) TOKEN_PLACEHOLDER) eqn:E;
    [discriminate|].
  destruct (TELEGRAM_TOKEN environ) as [|ch token]; [discriminate|].
  intros H. injection H as <-.
  split; [reflexivity|]. split.
  - intros Heq. rewrite Heq, pystr_eqb_refl in E. discriminate E.
  - split; [reflexivity|]. split.
    + destruct db; simpl; eauto.
    + now intros t ->.
Qed.

End EntryPointLaws.

Lemma main_polls_only_when_configured_witness :
  main true [(py "TELEGRAM_TOKEN", py "123:abc")] None
    (None : database PrimFloat.float)
  = RunPolling (Some []) /\
  TELEGRAM_TOKEN [(py "TELEGRAM_TOKEN", py "123:abc")] <> TOKEN_PLACEHOLDER.
Proof.
  assert (main true [(py "TELEGRAM_TOKEN", py "123:abc")] None
            (None : database PrimFloat.float)
          = RunPolling (Some [])) as H by (vm_compute; reflexivity).
  split; [exact H|].
  exact (proj1 (proj2 (@main_polls_only_when_configured PrimFloat.float
                         _ _ _ _ _ H))).
Defined.

(* ------------------------------------------------------------------ *)
(** ** Chat handlers                                                   *)
(* ------------------------------------------------------------------ *)

(** The catalogue does not depend on the hint and has five entries. *)
Lemma build_inline_pairs_total :
  exists pairs,
    List.length pairs = 5 /\
    forall city, build_inline_pairs city = Ok pairs.
Proof.
  eexists. split; [|intros city; vm_compute; reflexivity]. reflexivity.
Qed.

Section HandlerLaws.

Variable float : Type.
Variable float_bool : float -> bool.
Variable sqlite_real : float -> option float.
Variable requests_get : request float -> http_outcome float.
Variable deliver : outgoing -> result unit.
Variable py_str : pyval float -> pystr.
Variable float_str : float -> pystr.
Variable sqlite_text : pyval float -> result (option pystr).

Abbreviation handle :=
  (handle_location float_bool sqlite_real requests_get deliver py_str
     sqlite_text).

Lemma reply_text_db (m : outgoing) (s s' : bot_state float) (r : result unit) :
  reply_text deliver m s = (r, s') -> bot_db s' = bot_db s.
Proof.
  unfold reply_text. destruct (deliver m); intros H; injection H as <- <-;
    reflexivity.
Qed.

(** A handled location, step by step: once the geocoder has answered and
    the driver has accepted the identifier and the two texts, the row is
    written and only the two replies remain. *)
Lemma handle_location_steps
      (la lo : float) (uid now : Z) (s : bot_state float)
      (c a : pyval float) (c' a' : option pystr) (t : table float)
      (pairs : list (pystr * pystr)) :
  reverse_geocode float_bool requests_get la lo = Ok (c, a) ->
  init_db (bot_db s) = Some t ->
  in_int64 uid = true ->
  sqlite_text c = Ok c' ->
  sqlite_text a = Ok a' ->
  (forall city, build_inline_pairs city = Ok pairs) ->
  exists row,
    user_id row = uid /\
    lat row = sqlite_real la /\ lon row = sqlite_real lo /\
    city row = c' /\ address row = a' /\
    handle (Some (la, lo)) uid now s
    = and_then
        (reply_text deliver
           (location_saved_reply py_str
              (or_placeholder float_bool c UNKNOWN_CITY)
              (or_placeholder float_bool a UNKNOWN_ADDRESS)))
        (fun _ => reply_text deliver (categories_reply pairs))
        {| bot_db := Some (upsert row t); bot_sent := bot_sent s |}.
Proof.
  intros Hgeo Ht Hid Hc Ha Hpairs.
  destruct (bind_integer_in _ Hid) as (id & Hbind & Hv).
  exists {| user_id := int64_value id; user_id_range := int64_range id;
            lat := sqlite_real la; lon := sqlite_real lo;
            city := c'; address := a'; updated_at := Some now |}.
  split; [exact Hv|].
  split; [reflexivity|]. split; [reflexivity|].
  split; [reflexivity|]. split; [reflexivity|].
  unfold handle_location.
  unfold and_then at 1. unfold pure_step at 1. rewrite Hgeo.
  cbn [fst snd].
  unfold and_then at 1. unfold db_step at 1. rewrite Ht.
  unfold and_then at 1. unfold db_step at 1. cbn [bot_db bot_sent].
  unfold save_user_location_values. rewrite Hbind, Hc, Ha. cbn [bind].
  unfold and_then at 1. unfold pure_step at 1. rewrite Hpairs.
  reflexivity.
Qed.

(** An absorbed failure gives the pair of empty strings. *)
Lemma reverse_geocode_empty_on_failure (la lo : float) :
  absorbed_failure (requests_get (geocode_request la lo)) ->
  reverse_geocode float_bool requests_get la lo = Ok (PStr [], PStr []).
Proof.
  destruct (reverse_geocode_outcomes float_bool requests_get la lo)
    as [(e & Hget & He & _)|[Hr|(data & comp & (r & Hget & Hst & Hbody & _) & _)]];
    [|intros _; exact Hr|]; rewrite Hget; simpl.
  - congruence.
  - unfold raise_for_status in Hst.
    intros [[Hlo Hhi]|Hnone]; [|congruence].
    apply Z.leb_le in Hlo. apply Z.ltb_lt in Hhi.
    rewrite Hlo, Hhi in Hst. discriminate Hst.
Qed.

(** What a read returns once the row of a handled location is in the
    table. *)
Lemma get_user_location_upsert
      (uid : Z) (row : row float) (t : table float) (la lo : float) :
  in_int64 uid = true ->
  user_id row = uid ->
  lat row = Some la ->
  lon row = Some lo ->
  get_user_location uid (Some (upsert row t))
  = Ok (Some (la, lo,
              match city row with Some x => x | None => [] end,
              match address row with Some x => x | None => [] end)).
Proof.
  intros Hid Hk Hla Hlo. rewrite get_user_location_rows by assumption.
  destruct (rows_of_upsert_head row t) as [rest E].
  rewrite Hk in E. rewrite E, Hla, Hlo. cbn [py_float bind].
  now rewrite !text_or_empty_default.
Qed.

(** X17. The location is stored before anything is sent: for a 64-bit
    identifier and coordinates that the [REAL] columns hold (no NaN),
    once the geocoder has answered and the driver has accepted the two
    texts, a read returns the coordinates as stored whatever becomes of
    the replies, also when their delivery raises. *)
Theorem handle_location_stores_before_replying
        (la lo la' lo' : float) (uid now : Z) (s s' : bot_state float)
        (r : result unit) (c a : pyval float) (c' a' : option pystr) :
  in_int64 uid = true ->
  sqlite_real la = Some la' ->
  sqlite_real lo = Some lo' ->
  reverse_geocode float_bool requests_get la lo = Ok (c, a) ->
  sqlite_text c = Ok c' ->
  sqlite_text a = Ok a' ->
  handle (Some (la, lo)) uid now s = (r, s') ->
  get_user_location uid (bot_db s')
  = Ok (Some (la', lo',
              match c' with Some x => x | None => [] end,
              match a' with Some x => x | None => [] end)).
Proof.
  intros Hid Hla Hlo Hgeo Hc Ha.
  assert (exists t, init_db (bot_db s) = Some t) as [t Ht]
      by (destruct (bot_db s); simpl; eauto).
  destruct build_inline_pairs_total as (pairs & _ & Hpairs).
  destruct (handle_location_steps la lo uid now s Hgeo Ht Hid Hc Ha Hpairs)
    as (row & Hk & Hrla & Hrlo & Hrc & Hra & ->).
  rewrite Hla in Hrla. rewrite Hlo in Hrlo.
  pose proof (@get_user_location_upsert uid row t la' lo' Hid Hk Hrla Hrlo) as Hget.
  rewrite Hrc, Hra in Hget.
  unfold and_then.
  match goal with
  | |- context [reply_text deliver ?m ?st] =>
      destruct (reply_text deliver m st) as [[[]|e1] s1] eqn:E1
  end.
  - apply reply_text_db in E1.
    match goal with
    | |- context [reply_text deliver ?m ?st] =>
        destruct (reply_text deliver m st) as [r2 s2] eqn:E2
    end.
    apply reply_text_db in E2. intros H. injection H as <- <-.
    rewrite E2, E1. exact Hget.
  - apply reply_text_db in E1. intros H. injection H as <- <-.
    rewrite E1. exact Hget.
Qed.

(** X18. Fail-open, end to end: when the geocoding fails (an exception
    raised by the request, an error status, no JSON body) the handler
    still stores the coordinates of a 64-bit user, with empty city and
    address, and answers with the two placeholders and the keyboard of
    the five categories; a read then returns the coordinates as stored
    when the [REAL] columns hold them (no NaN). *)
Theorem handle_location_fail_open
        (la lo la' lo' : float) (uid now : Z) (s : bot_state float) :
  in_int64 uid = true ->
  sqlite_real la = Some la' ->
  sqlite_real lo = Some lo' ->
  absorbed_failure (requests_get (geocode_request la lo)) ->
  sqlite_text (PStr []) = Ok (Some []) ->
  (forall m, deliver m = Ok tt) ->
  exists s' pairs,
    handle (Some (la, lo)) uid now s = (Ok tt, s') /\
    get_user_location uid (bot_db s') = Ok (Some (la', lo', [], [])) /\
    build_inline_pairs None = Ok pairs /\
    bot_sent s'
    = bot_sent s
      ++ [ location_saved_reply py_str (PStr UNKNOWN_CITY) (PStr UNKNOWN_ADDRESS);
           categories_reply pairs ].
Proof.
  intros Hid Hla Hlo Hfail Hsql Hdeliver.
  pose proof (reverse_geocode_empty_on_failure _ _ Hfail) as Hgeo.
  assert (exists t, init_db (bot_db s) = Some t) as [t Ht]
      by (destruct (bot_db s); simpl; eauto).
  destruct build_inline_pairs_total as (pairs & _ & Hpairs).
  destruct (handle_location_steps la lo uid now s Hgeo Ht Hid Hsql Hsql Hpairs)
    as (row & Hk & Hrla & Hrlo & Hrc & Hra & ->).
  rewrite Hla in Hrla. rewrite Hlo in Hrlo.
  pose proof (@get_user_location_upsert uid row t la' lo' Hid Hk Hrla Hrlo) as Hget.
  rewrite Hrc, Hra in Hget.
  unfold and_then, reply_text. rewrite !Hdeliver. cbn [bot_db bot_sent].
  eexists. exists pairs. split; [reflexivity|]. cbn [bot_db bot_sent].
  split; [exact Hget|]. split; [apply Hpairs|now rewrite <- app_assoc].
Qed.

(** X19. From a sent location to [/mylocation]: for a 64-bit user and
    coordinates that the [REAL] columns hold (no NaN), when the geocoder
    returns two strings that the driver stores as they are and the
    replies are delivered, the handler completes and [mylocation] then
    answers with the coordinates as stored and exactly this city and
    address. *)
Theorem handle_location_then_mylocation
        (la lo la' lo' : float) (uid now : Z) (s : bot_state float)
        (c a : pystr) :
  in_int64 uid = true ->
  sqlite_real la = Some la' ->
  sqlite_real lo = Some lo' ->
  reverse_geocode float_bool requests_get la lo = Ok (PStr c, PStr a) ->
  sqlite_text (PStr c) = Ok (Some c) ->
  sqlite_text (PStr a) = Ok (Some a) ->
  (forall m, deliver m = Ok tt) ->
  exists s1,
    handle (Some (la, lo)) uid now s = (Ok tt, s1) /\
    mylocation deliver float_str uid s1
    = (Ok tt,
       {| bot_db := bot_db s1;
          bot_sent :=
            bot_sent s1 ++ [current_location_reply float_str la' lo' c a] |}).
Proof.
  intros Hid Hla Hlo Hgeo Hc Ha Hdeliver.
  assert (exists t, init_db (bot_db s) = Some t) as [t Ht]
      by (destruct (bot_db s); simpl; eauto).
  destruct build_inline_pairs_total as (pairs & _ & Hpairs).
  destruct (handle_location_steps la lo uid now s Hgeo Ht Hid Hc Ha Hpairs)
    as (row & Hk & Hrla & Hrlo & Hrc & Hra & ->).
  rewrite Hla in Hrla. rewrite Hlo in Hrlo.
  pose proof (@get_user_location_upsert uid row t la' lo' Hid Hk Hrla Hrlo) as Hget.
  rewrite Hrc, Hra in Hget.
  unfold and_then at 1. unfold reply_text at 1 2. rewrite !Hdeliver.
  cbn [bot_db bot_sent].
  eexists. split; [reflexivity|].
  unfold mylocation, and_then. cbn [bot_db bot_sent].
  rewrite Hget. unfold reply_text. rewrite Hdeliver. reflexivity.
Qed.

(** X20. [mylocation] for a 64-bit user who never sent a location:
    after any saves that do not name the user, whether they return or
    raise, the handler sends the not-registered-yet text, and nothing
    else, and leaves the database as it is. *)
Theorem mylocation_unknown_user
        (calls : list (save_call float)) (uid : Z) (sent0 : list outgoing) :
  in_int64 uid = true ->
  Forall (fun c => call_user_id c <> uid) calls ->
  deliver no_location_yet_reply = Ok tt ->
  let db := run_saves_caught sqlite_real calls (init_db None) in
  mylocation deliver float_str uid {| bot_db := db; bot_sent := sent0 |}
  = (Ok tt, {| bot_db := db; bot_sent := sent0 ++ [no_location_yet_reply] |}).
Proof.
  intros Hid Hall Hdeliver db. subst db. unfold init_db.
  destruct (run_saves_caught_table sqlite_real calls [])
    as (t & Hrun & _ & Hrows).
  unfold table in Hrun. rewrite Hrun.
  unfold mylocation, and_then. cbn [bot_db bot_sent].
  rewrite get_user_location_rows, Hrows by assumption. simpl rows_of.
  unfold reply_text. rewrite Hdeliver. reflexivity.
Qed.

(** The database after a handled location: as it was, or with the
    table created, or with the one row of the user written. *)
Lemma handle_location_db_cases
      (loc : option (float * float)) (uid now : Z) (s s' : bot_state float)
      (r : result unit) :
  handle loc uid now s = (r, s') ->
  bot_db s' = bot_db s \/
  bot_db s' = init_db (bot_db s) \/
  exists t row,
    init_db (bot_db s) = Some t /\ user_id row = uid /\
    bot_db s' = Some (upsert row t).
Proof.
  destruct loc as [[la lo]|].
  2:{ intros H. left. exact (reply_text_db _ _ H). }
  unfold handle_location, and_then, pure_step, db_step.
  destruct (reverse_geocode float_bool requests_get la lo) as [[c a]|e];
    [|intros H; injection H as <- <-; now left].
  cbn [fst snd bot_db bot_sent].
  destruct (init_db (bot_db s)) as [t|] eqn:Ht;
    [|destruct (bot_db s); discriminate Ht].
  unfold save_user_location_values.
  destruct (bind_integer uid) as [id|e] eqn:Hbind;
    [|intros H; injection H as <- <-; right; now left].
  apply bind_integer_ok in Hbind as [Hv _].
  destruct (sqlite_text c) as [c'|e];
    [|intros H; injection H as <- <-; right; now left].
  destruct (sqlite_text a) as [a'|e];
    [|intros H; injection H as <- <-; right; now left].
  cbn [bind bot_db bot_sent].
  destruct build_inline_pairs_total as (pairs & _ & Hpairs).
  rewrite Hpairs.
  match goal with
  | |- context [reply_text deliver ?m ?st] =>
      destruct (reply_text deliver m st) as [[[]|e1] s1] eqn:E1
  end; apply reply_text_db in E1.
  - match goal with
    | |- context [reply_text deliver ?m ?st] =>
        destruct (reply_text deliver m st) as [r2 s2] eqn:E2
    end.
    apply reply_text_db in E2. intros H. injection H as <- <-.
    right. right. eexists. eexists. split; [reflexivity|].
    split; [|rewrite E2, E1; reflexivity]. exact Hv.
  - intros H. injection H as <- <-.
    right. right. eexists. eexists. split; [reflexivity|].
    split; [|rewrite E1; reflexivity]. exact Hv.
Qed.

(** A read depends on the rows selected for the identifier only. *)
Lemma get_user_location_rows_of (uid : Z) (t t' : table float) :
  rows_of uid t' = rows_of uid t ->
  get_user_location uid (Some t') = get_user_location uid (Some t).
Proof.
  intros H. destruct (in_int64 uid) eqn:Hid.
  - rewrite !get_user_location_rows by assumption. now rewrite H.
  - now rewrite !get_user_location_out_of_range.
Qed.

(** X21. A handled location touches one user only: whatever the
    outcome, every other user's stored location reads as before. *)
Theorem handle_location_frame
        (loc : option (float * float)) (uid uid' now : Z) (t : table float)
        (sent0 : list outgoing) (s' : bot_state float) (r : result unit) :
  uid <> uid' ->
  handle loc uid now {| bot_db := Some t; bot_sent := sent0 |} = (r, s') ->
  get_user_location uid' (bot_db s') = get_user_location uid' (Some t).
Proof.
  intros Hne H. apply handle_location_db_cases in H.
  cbn [bot_db init_db] in H.
  destruct H as [->|[->|(t0 & row & Ht & Hid & ->)]]; try reflexivity.
  injection Ht as <-.
  apply get_user_location_rows_of.
  rewrite rows_of_upsert_other by congruence. reflexivity.
Qed.

(** X22. What a completed handler has sent: one text when no location
    came with the message, and otherwise the confirmation followed by
    the keyboard of the five categories, one button per row, the same
    for every location, user and geocoding result. *)
Theorem handle_location_replies
        (loc : option (float * float)) (uid now : Z) (s s' : bot_state float) :
  handle loc uid now s = (Ok tt, s') ->
  match loc with
  | None =>
      bot_db s' = bot_db s /\
      bot_sent s' = bot_sent s ++ [location_missing_reply]
  | Some _ =>
      exists confirmation pairs,
        (forall city, build_inline_pairs city = Ok pairs) /\
        List.length pairs = 5 /\
        reply_markup confirmation = ReplyKeyboardRemove /\
        bot_sent s'
        = bot_sent s ++ [confirmation; categories_reply pairs]
  end.
Proof.
  destruct loc as [[la lo]|].
  2:{ unfold handle_location, reply_text.
      destruct (deliver location_missing_reply); [|discriminate].
      intros H. injection H as <-. split; reflexivity. }
  destruct build_inline_pairs_total as (pairs & Hlen & Hpairs).
  unfold handle_location, and_then, pure_step, db_step.
  destruct (reverse_geocode float_bool requests_get la lo) as [[c a]|e];
    [|discriminate].
  cbn [fst snd bot_db bot_sent].
  destruct (init_db (bot_db s)) as [t|] eqn:Ht;
    [|destruct (bot_db s); discriminate Ht].
  unfold save_user_location_values.
  destruct (bind_integer uid) as [id|e]; [|discriminate].
  destruct (sqlite_text c) as [c'|e]; [|discriminate].
  destruct (sqlite_text a) as [a'|e]; [|discriminate].
  cbn [bind bot_db bot_sent]. rewrite Hpairs.
  unfold reply_text.
  match goal with
  | |- context [deliver ?m] => destruct (deliver m); [|discriminate]
  end.
  cbn [bot_db bot_sent].
  match goal with
  | |- context [deliver ?m] => destruct (deliver m); [|discriminate]
  end.
  intros H. injection H as <-. cbn [bot_sent].
  eexists. exists pairs. split; [exact Hpairs|]. split; [exact Hlen|].
  split; [|now rewrite <- app_assoc]. reflexivity.
Qed.

End HandlerLaws.

(* ------------------------------------------------------------------ *)
(** ** Instances of the laws above                                     *)
(* ------------------------------------------------------------------ *)

Lemma save_user_location_overwrites_witness :
  save_user_location binary64_real 7 1.5%float 2.25%float
    (py "CityX") (py "AddrY") 1700000000 (Some [null_text_row])
  = Ok (Some [null_text_row;
              {| user_id := 7; user_id_range := eq_refl;
                 lat := Some 1.5%float; lon := Some 2.25%float;
                 city := Some (py "CityX"); address := Some (py "AddrY");
                 updated_at := Some 1700000000%Z |}]) /\
  save_user_location binary64_real 7 35.75%float 51.5%float
    (py "Tehran") [] 1700000100
    (Some [null_text_row;
           {| user_id := 7; user_id_range := eq_refl;
              lat := Some 1.5%float; lon := Some 2.25%float;
              city := Some (py "CityX"); address := Some (py "AddrY");
              updated_at := Some 1700000000%Z |}])
  = save_user_location binary64_real 7 35.75%float 51.5%float
      (py "Tehran") [] 1700000100 (Some [null_text_row]).
Proof.
  assert (save_user_location binary64_real 7 1.5%float 2.25%float
            (py "CityX") (py "AddrY") 1700000000 (Some [null_text_row])
          = Ok (Some [null_text_row;
                      {| user_id := 7; user_id_range := eq_refl;
                         lat := Some 1.5%float; lon := Some 2.25%float;
                         city := Some (py "CityX");
                         address := Some (py "AddrY");
                         updated_at := Some 1700000000%Z |}])) as H1
      by (vm_compute; reflexivity).
  split; [exact H1|].
  exact (@save_user_location_overwrites PrimFloat.float binary64_real
           _ _ 7 _ _ _ _ _ 35.75%float 51.5%float (py "Tehran") []
           1700000100 H1).
Defined.

Lemma save_user_location_row_count_witness :
  save_user_location binary64_real 7 35.75%float 51.5%float
    (py "Tehran") [] 1700000100 (Some [null_text_row])
  = Ok (Some [null_text_row; tehran_row]) /\
  List.length [null_text_row; tehran_row]
  = (if has_row 7 [null_text_row] then 1 else 2).
Proof.
  assert (save_user_location binary64_real 7 35.75%float 51.5%float
            (py "Tehran") [] 1700000100 (Some [null_text_row])
          = Ok (Some [null_text_row; tehran_row])) as H
      by (vm_compute; reflexivity).
  split; [exact H|].
  exact (@save_user_location_row_count PrimFloat.float binary64_real
           _ _ 7 _ _ _ _ _ H).
Defined.

Lemma save_user_location_frame_witness :
  (7 <> 42)%Z /\
  save_user_location binary64_real 7 35.75%float 51.5%float
    (py "Tehran") [] 1700000100 (Some [null_text_row])
  = Ok (Some [null_text_row; tehran_row]) /\
  get_user_location 42 (Some [null_text_row; tehran_row])
  = get_user_location 42 (Some [null_text_row]).
Proof.
  assert (7 <> 42)%Z as Hne by discriminate.
  assert (save_user_location binary64_real 7 35.75%float 51.5%float
            (py "Tehran") [] 1700000100 (Some [null_text_row])
          = Ok (Some [null_text_row; tehran_row])) as Hsave
      by (vm_compute; reflexivity).
  split; [exact Hne|]. split; [exact Hsave|].
  exact (@save_user_location_frame PrimFloat.float binary64_real
           _ _ 7 42 _ _ _ _ _ Hne Hsave).
Defined.

Lemma save_user_location_commute_witness :
  (7 <> 123)%Z /\
  save_user_location binary64_real 7 35.75%float 51.5%float
    (py "Tehran") [] 1700000100 (Some [])
  = Ok (Some [tehran_row]) /\
  save_user_location binary64_real 123 1.5%float 2.25%float
    (py "CityX") (py "AddrY") 1700000200 (Some [tehran_row])
  = Ok (Some [tehran_row;
              {| user_id := 123; user_id_range := eq_refl;
                 lat := Some 1.5%float; lon := Some 2.25%float;
                 city := Some (py "CityX"); address := Some (py "AddrY");
                 updated_at := Some 1700000200%Z |}]) /\
  exists d1' d2',
    save_user_location binary64_real 123 1.5%float 2.25%float
      (py "CityX") (py "AddrY") 1700000200 (Some []) = Ok d1' /\
    save_user_location binary64_real 7 35.75%float 51.5%float
      (py "Tehran") [] 1700000100 d1' = Ok d2' /\
    forall uid,
      get_user_location uid d2'
      = get_user_location uid
          (Some [tehran_row;
                 {| user_id := 123; user_id_range := eq_refl;
                    lat := Some 1.5%float; lon := Some 2.25%float;
                    city := Some (py "CityX"); address := Some (py "AddrY");
                    updated_at := Some 1700000200%Z |}]).
Proof.
  assert (7 <> 123)%Z as Hne by discriminate.
  assert (save_user_location binary64_real 7 35.75%float 51.5%float
            (py "Tehran") [] 1700000100 (Some [])
          = Ok (Some [tehran_row])) as H1 by (vm_compute; reflexivity).
  assert (save_user_location binary64_real 123 1.5%float 2.25%float
            (py "CityX") (py "AddrY") 1700000200 (Some [tehran_row])
          = Ok (Some [tehran_row;
                      {| user_id := 123; user_id_range := eq_refl;
                         lat := Some 1.5%float; lon := Some 2.25%float;
                         city := Some (py "CityX");
                         address := Some (py "AddrY");
                         updated_at := Some 1700000200%Z |}])) as H2
      by (vm_compute; reflexivity).
  split; [exact Hne|]. split; [exact H1|]. split; [exact H2|].
  exact (@save_user_location_commute PrimFloat.float binary64_real
           _ _ _ 7 123 _ _ _ _ _ _ _ _ _ _ Hne H1 H2).
Defined.

Lemma get_user_location_last_save_witness :
  in_int64 123 = true /\
  get_user_location 123
    (run_saves_caught binary64_real (mixed_calls ++ [nan_call])
       (init_db None))
  = Raise TypeError /\
  get_user_location 123
    (run_saves_caught binary64_real mixed_calls (init_db None))
  = Ok (Some (3.5%float, 4.25%float, py "CityZ", py "AddrW")).
Proof.
  assert (in_int64 123 = true) as Hid by reflexivity.
  split; [exact Hid|]. split.
  - exact (eq_trans
             (@get_user_location_last_save PrimFloat.float binary64_real
                (mixed_calls ++ [nan_call]) 123 Hid)
             eq_refl).
  - exact (eq_trans
             (@get_user_location_last_save PrimFloat.float binary64_real
                mixed_calls 123 Hid)
             eq_refl).
Defined.

Lemma get_user_location_null_coordinate_witness :
  hd_error (rows_of 42 [null_lat_row]) = Some null_lat_row /\
  (lat null_lat_row = None \/ lon null_lat_row = None) /\
  get_user_location 42 (Some [null_lat_row]) = Raise TypeError.
Proof.
  assert (hd_error (rows_of 42 [null_lat_row]) = Some null_lat_row) as H
      by reflexivity.
  assert (lat null_lat_row = None \/ lon null_lat_row = None) as Hn
      by (left; reflexivity).
  split; [exact H|]. split; [exact Hn|].
  exact (@get_user_location_null_coordinate PrimFloat.float _ 42 _ H Hn).
Defined.

Lemma reverse_geocode_raises_only_base_exceptions_witness :
  reverse_geocode binary64_bool (always (HttpRaises KeyboardInterrupt))
    35.75%float 51.5%float = Raise KeyboardInterrupt /\
  is_Exception KeyboardInterrupt = false /\
  always (HttpRaises KeyboardInterrupt) (geocode_request 35.75%float 51.5%float)
  = HttpRaises KeyboardInterrupt.
Proof.
  assert (reverse_geocode binary64_bool (always (HttpRaises KeyboardInterrupt))
            35.75%float 51.5%float = Raise KeyboardInterrupt) as H
      by reflexivity.
  split; [exact H|].
  exact (@reverse_geocode_raises_only_base_exceptions PrimFloat.float
           binary64_bool _ _ _ _ H).
Defined.

Lemma reverse_geocode_city_empty_or_truthy_witness :
  reverse_geocode binary64_bool (always empty_city_outcome)
    35.75%float 51.5%float
  = Ok (PStr (py "Karaj"), PStr (py "Karaj, Alborz, Iran")) /\
  (PStr (py "Karaj") = (PStr [] : pyval PrimFloat.float) \/
   truthy binary64_bool (PStr (py "Karaj")) = true).
Proof.
  assert (reverse_geocode binary64_bool (always empty_city_outcome)
            35.75%float 51.5%float
          = Ok (PStr (py "Karaj"), PStr (py "Karaj, Alborz, Iran"))) as H
      by (vm_compute; reflexivity).
  split; [exact H|].
  exact (@reverse_geocode_city_empty_or_truthy PrimFloat.float
           binary64_bool _ _ _ _ _ H).
Defined.

Lemma reverse_geocode_ill_shaped_witness :
  always (HttpResponse array_body_response)
    (geocode_request 35.75%float 51.5%float)
  = HttpResponse array_body_response /\
  reverse_geocode binary64_bool (always (HttpResponse array_body_response))
    35.75%float 51.5%float
  = Ok (PStr [], PStr []).
Proof.
  assert (always (HttpResponse array_body_response)
            (geocode_request 35.75%float 51.5%float)
          = HttpResponse array_body_response) as Hget by reflexivity.
  split; [exact Hget|].
  refine (@reverse_geocode_ill_shaped PrimFloat.float binary64_bool
            _ _ _ _ Hget _).
  left. exists (PList []). split; [reflexivity|]. intros d Hd.
  discriminate Hd.
Defined.

Lemma handle_location_stores_before_replying_witness :
  in_int64 123 = true /\
  binary64_real 35.75%float = Some 35.75%float /\
  binary64_real 51.5%float = Some 51.5%float /\
  reverse_geocode binary64_bool (always (mock_response tehran_data))
    35.75%float 51.5%float
  = Ok (PStr (py "Tehran"), PStr (py "Some Address, Tehran, Iran")) /\
  handle_location binary64_bool binary64_real
    (always (mock_response tehran_data))
    unreachable str_of_text text_cell
    (Some (35.75%float, 51.5%float)) 123 1700000000 empty_state
  = (Raise ConnectionError,
     {| bot_db :=
          Some [ {| user_id := 123; user_id_range := eq_refl;
                    lat := Some 35.75%float;
                    lon := Some 51.5%float;
                    city := Some (py "Tehran");
                    address := Some (py "Some Address, Tehran, Iran");
                    updated_at := Some 1700000000%Z |} ];
        bot_sent := [] |}) /\
  get_user_location 123
    (Some [ {| user_id := 123; user_id_range := eq_refl;
               lat := Some 35.75%float;
               lon := Some 51.5%float;
               city := Some (py "Tehran");
               address := Some (py "Some Address, Tehran, Iran");
               updated_at := Some 1700000000%Z |} ])
  = Ok (Some (35.75%float, 51.5%float, py "Tehran",
              py "Some Address, Tehran, Iran")).
Proof.
  assert (in_int64 123 = true) as Hid by reflexivity.
  assert (binary64_real 35.75%float = Some 35.75%float) as Hla
      by (vm_compute; reflexivity).
  assert (binary64_real 51.5%float = Some 51.5%float) as Hlo
      by (vm_compute; reflexivity).
  assert (reverse_geocode binary64_bool (always (mock_response tehran_data))
            35.75%float 51.5%float
          = Ok (PStr (py "Tehran"), PStr (py "Some Address, Tehran, Iran")))
    as Hgeo by (vm_compute; reflexivity).
  assert (text_cell (PStr (py "Tehran")) = Ok (Some (py "Tehran"))) as Hc
      by (vm_compute; reflexivity).
  assert (text_cell (PStr (py "Some Address, Tehran, Iran"))
          = Ok (Some (py "Some Address, Tehran, Iran"))) as Ha
      by (vm_compute; reflexivity).
  assert (handle_location binary64_bool binary64_real
            (always (mock_response tehran_data))
            unreachable str_of_text text_cell
            (Some (35.75%float, 51.5%float)) 123 1700000000 empty_state
          = (Raise ConnectionError,
             {| bot_db :=
                  Some [ {| user_id := 123; user_id_range := eq_refl;
                            lat := Some 35.75%float;
                            lon := Some 51.5%float;
                            city := Some (py "Tehran");
                            address := Some (py "Some Address, Tehran, Iran");
                            updated_at := Some 1700000000%Z |} ];
                bot_sent := [] |})) as Hrun by (vm_compute; reflexivity).
  split; [exact Hid|]. split; [exact Hla|]. split; [exact Hlo|].
  split; [exact Hgeo|]. split; [exact Hrun|].
  exact (@handle_location_stores_before_replying PrimFloat.float binary64_bool
           binary64_real _ unreachable str_of_text text_cell
           _ _ _ _ 123 1700000000 _ _ _ _ _ _ _
           Hid Hla Hlo Hgeo Hc Ha Hrun).
Defined.

Lemma handle_location_fail_open_witness :
  in_int64 123 = true /\
  binary64_real 35.75%float = Some 35.75%float /\
  binary64_real 51.5%float = Some 51.5%float /\
  absorbed_failure
    (always (HttpRaises Timeout) (geocode_request 35.75%float 51.5%float)) /\
  exists s' pairs,
    handle_location binary64_bool binary64_real (always (HttpRaises Timeout))
      delivered str_of_text text_cell
      (Some (35.75%float, 51.5%float)) 123 1700000000 empty_state
    = (Ok tt, s') /\
    get_user_location 123 (bot_db s')
    = Ok (Some (35.75%float, 51.5%float, [], [])) /\
    build_inline_pairs None = Ok pairs /\
    bot_sent s'
    = bot_sent empty_state
      ++ [ location_saved_reply str_of_text (PStr UNKNOWN_CITY)
             (PStr UNKNOWN_ADDRESS);
           categories_reply pairs ].
Proof.
  assert (in_int64 123 = true) as Hid by reflexivity.
  assert (binary64_real 35.75%float = Some 35.75%float) as Hla
      by (vm_compute; reflexivity).
  assert (binary64_real 51.5%float = Some 51.5%float) as Hlo
      by (vm_compute; reflexivity).
  assert (absorbed_failure
            (always (HttpRaises Timeout)
               (geocode_request 35.75%float 51.5%float))) as H
      by reflexivity.
  split; [exact Hid|]. split; [exact Hla|]. split; [exact Hlo|].
  split; [exact H|].
  exact (@handle_location_fail_open PrimFloat.float binary64_bool
           binary64_real _ delivered str_of_text text_cell
           _ _ _ _ 123 1700000000 empty_state
           Hid Hla Hlo H eq_refl (fun _ => eq_refl)).
Defined.

Lemma handle_location_then_mylocation_witness :
  in_int64 123 = true /\
  binary64_real 35.75%float = Some 35.75%float /\
  binary64_real 51.5%float = Some 51.5%float /\
  reverse_geocode binary64_bool (always (mock_response tehran_data))
    35.75%float 51.5%float
  = Ok (PStr (py "Tehran"), PStr (py "Some Address, Tehran, Iran")) /\
  exists s1,
    handle_location binary64_bool binary64_real
      (always (mock_response tehran_data))
      delivered str_of_text text_cell
      (Some (35.75%float, 51.5%float)) 123 1700000000 empty_state
    = (Ok tt, s1) /\
    mylocation delivered float_placeholder 123 s1
    = (Ok tt,
       {| bot_db := bot_db s1;
          bot_sent :=
            bot_sent s1
            ++ [current_location_reply float_placeholder 35.75%float 51.5%float
                  (py "Tehran") (py "Some Address, Tehran, Iran")] |}).
Proof.
  assert (in_int64 123 = true) as Hid by reflexivity.
  assert (binary64_real 35.75%float = Some 35.75%float) as Hla
      by (vm_compute; reflexivity).
  assert (binary64_real 51.5%float = Some 51.5%float) as Hlo
      by (vm_compute; reflexivity).
  assert (reverse_geocode binary64_bool (always (mock_response tehran_data))
            35.75%float 51.5%float
          = Ok (PStr (py "Tehran"), PStr (py "Some Address, Tehran, Iran")))
    as Hgeo by (vm_compute; reflexivity).
  assert (text_cell (PStr (py "Tehran")) = Ok (Some (py "Tehran"))) as Hc
      by (vm_compute; reflexivity).
  assert (text_cell (PStr (py "Some Address, Tehran, Iran"))
          = Ok (Some (py "Some Address, Tehran, Iran"))) as Ha
      by (vm_compute; reflexivity).
  split; [exact Hid|]. split; [exact Hla|]. split; [exact Hlo|].
  split; [exact Hgeo|].
  exact (@handle_location_then_mylocation PrimFloat.float binary64_bool
           binary64_real _ delivered str_of_text float_placeholder text_cell
           _ _ _ _ 123 1700000000 empty_state _ _
           Hid Hla Hlo Hgeo Hc Ha (fun _ => eq_refl)).
Defined.

Lemma mylocation_unknown_user_witness :
  in_int64 999 = true /\
  Forall (fun c => call_user_id c <> 999%Z) mixed_calls /\
  mylocation delivered float_placeholder 999
    {| bot_db := run_saves_caught binary64_real mixed_calls (init_db None);
       bot_sent := [] |}
  = (Ok tt,
     {| bot_db := run_saves_caught binary64_real mixed_calls (init_db None);
        bot_sent := [] ++ [no_location_yet_reply] |}).
Proof.
  assert (in_int64 999 = true) as Hid by reflexivity.
  assert (Forall (fun c : save_call PrimFloat.float => call_user_id c <> 999%Z)
            mixed_calls) as H.
  { repeat constructor; discriminate. }
  split; [exact Hid|]. split; [exact H|].
  exact (@mylocation_unknown_user PrimFloat.float binary64_real delivered
           float_placeholder mixed_calls 999 [] Hid H eq_refl).
Defined.

Lemma handle_location_frame_witness :
  (123 <> 42)%Z /\
  get_user_location 42
    (bot_db
       (snd (handle_location binary64_bool binary64_real
               (always (HttpRaises Timeout))
               delivered str_of_text text_cell
               (Some (35.75%float, 51.5%float)) 123 1700000000
               {| bot_db := Some [null_text_row]; bot_sent := [] |})))
  = get_user_location 42 (Some [null_text_row]).
Proof.
  assert (123 <> 42)%Z as Hne by discriminate.
  split; [exact Hne|].
  exact (@handle_location_frame PrimFloat.float binary64_bool binary64_real _
           delivered str_of_text text_cell _ 123 42 1700000000 _ [] _ _
           Hne (surjective_pairing _)).
Defined.

Lemma handle_location_replies_witness :
  handle_location binary64_bool binary64_real (always (HttpRaises Timeout))
    delivered str_of_text text_cell None 123 1700000000 empty_state
  = (Ok tt, {| bot_db := None; bot_sent := [location_missing_reply] |}) /\
  bot_db {| bot_db := (None : database PrimFloat.float);
            bot_sent := [location_missing_reply] |}
  = bot_db empty_state /\
  bot_sent {| bot_db := (None : database PrimFloat.float);
              bot_sent := [location_missing_reply] |}
  = bot_sent empty_state ++ [location_missing_reply].
Proof.
  assert (handle_location binary64_bool binary64_real
            (always (HttpRaises Timeout))
            delivered str_of_text text_cell None 123 1700000000 empty_state
          = (Ok tt, {| bot_db := None; bot_sent := [location_missing_reply] |}))
    as H by reflexivity.
  split; [exact H|].
  exact (@handle_location_replies PrimFloat.float binary64_bool binary64_real _
           delivered str_of_text text_cell None 123 1700000000 _ _ H).
Defined.
